(** * pyzippy: the symbol-table / ident-frame codec of [pyzippy.py]

    A shallow embedding of the core of [pyzippy.py]: the constant [table],
    [rev_table] and [base_62], the keyword pattern [_kywds], the framer
    [_form_ident], the encoder [_encode] and the decoder [_decode].

    Python [str] values are modelled by [string] (sequences of 8-bit
    characters), Python exceptions by the [Raise] outcome of [result], and the
    two library codecs that [_encode] and [_decode] call
    ([base64.encodebytes . zlib.compress] and its inverse) by the variables of
    a section. *)

From Stdlib Require Import List String Ascii ZArith Lia Bool Arith.
From Equations Require Import Equations.
Import ListNotations.

Local Open Scope string_scope.

(** ** Outcomes of Python code *)

(** The exceptions the modelled functions can raise. *)
Inductive exn : Type :=
| IndexError                      (* subscript out of range: [s[i]] *)
| ValueError_not_found            (* [str.index]: substring not found *)
| ValueError_invalid_symbol (x : string)
                                  (* raised by [_decode], carries the symbol *)
| DecompressError.                (* anything raised by base64 / zlib / codecs *)

Inductive result (A : Type) : Type :=
| Ok (a : A)
| Raise (e : exn).

Arguments Ok {A} a.
Arguments Raise {A} e.

Definition bind {A B : Type} (m : result A) (k : A -> result B) : result B :=
  match m with
  | Ok a => k a
  | Raise e => Raise e
  end.

Notation "x <- m ;; k" := (bind m (fun x => k))
  (at level 61, m at next level, right associativity).

(** [for x in xs: acc = body(acc, x)], leaving at the first exception. *)
Fixpoint foldM {A B : Type} (body : A -> B -> result A) (xs : list B) (acc : A)
  : result A :=
  match xs with
  | [] => Ok acc
  | x :: xs' => acc' <- body acc x ;; foldM body xs' acc'
  end.

(** ** The [str] and [dict] operations the program uses *)

Module Py.

(** A one-character [str]. *)
Definition chr (c : ascii) : string := String c EmptyString.

(** [s[i]] for an [int] subscript: negative subscripts count from the end,
    anything outside [-len(s) .. len(s)-1] raises [IndexError]. *)
Definition getitem (s : string) (i : Z) : result string :=
  let n := Z.of_nat (String.length s) in
  let j := if (i <? 0)%Z then (i + n)%Z else i in
  if ((0 <=? j)%Z && (j <? n)%Z)%bool then
    match String.get (Z.to_nat j) s with
    | Some c => Ok (chr c)
    | None => Raise IndexError
    end
  else Raise IndexError.

(** [s[lo:hi]] for non-negative bounds: clipped to the string, never raising. *)
Definition slice (s : string) (lo hi : nat) : string :=
  String.substring lo (hi - lo) s.

(** [s[lo:]] for a non-negative bound. *)
Definition slice_from (s : string) (lo : nat) : string :=
  String.substring lo (String.length s - lo) s.

(** [s.index(sub)]: position of the first occurrence, [ValueError] if none. *)
Definition index (s sub : string) : result nat :=
  match String.index 0 sub s with
  | Some i => Ok i
  | None => Raise ValueError_not_found
  end.

(** [range(start, stop, step)] for [step > 0], as a list. *)
Definition range (start stop step : nat) : list nat :=
  map (fun k => start + k * step) (seq 0 ((stop - start + (step - 1)) / step)).

(** A [dict] with [str] keys: its items in insertion order. *)
Definition dict (V : Type) : Type := list (string * V).

Fixpoint get {V : Type} (d : dict V) (k : string) : option V :=
  match d with
  | [] => None
  | (k', v) :: d' => if (k' =? k)%string then Some v else get d' k
  end.

(** [d[k] = v]: an existing key keeps its place, a new one goes last. *)
Fixpoint set {V : Type} (d : dict V) (k : string) (v : V) : dict V :=
  match d with
  | [] => [(k, v)]
  | (k', v') :: d' =>
      if (k' =? k)%string then (k', v) :: d' else (k', v') :: set d' k v
  end.

(** A dict display [{k1: v1, ...}] or comprehension: the pairs are stored
    left to right. *)
Definition of_items {V : Type} (items : list (string * V)) : dict V :=
  fold_left (fun d kv => set d (fst kv) (snd kv)) items [].

Definition keys {V : Type} (d : dict V) : list string := map fst d.
Definition values {V : Type} (d : dict V) : list V := map snd d.

End Py.

(** ** Module constants: [table], [rev_table], [base_62] *)

(** The characters a Rocq string literal cannot spell directly. *)
Definition dquote : string := Py.chr (ascii_of_nat 34).
Definition newline : string := Py.chr (ascii_of_nat 10).
Definition tab : string := Py.chr (ascii_of_nat 9).

Definition table : Py.dict string := Py.of_items
  [ ("False", "A"); ("await", "a"); ("else", "B"); ("import", "b");
    ("pass", "C"); ("None", "c"); ("break", "D"); ("except", "d");
    ("in", "E"); ("raise", "e"); ("True", "F");
    ("class", "f"); ("finally", "G"); ("is", "g"); ("return", "H");
    ("and", "h"); ("continue", "I"); ("for", "i"); ("lambda", "J");
    ("try", "j"); ("as", "K"); ("def", "k");
    ("from", "L"); ("nonlocal", "l"); ("while", "M"); ("assert", "m");
    ("del", "N"); ("global", "n"); ("not", "O"); ("with", "o");
    ("async", "P"); ("elif", "p"); ("if", "Q"); ("or", "q"); ("yield", "R");

    ("!", "r"); ("@", "S"); ("#", "s"); ("%", "t"); ("^", "U"); ("&", "u");
    ("*", "V"); ("(", "v"); (")", "W"); ("[", "w");
    ("]", "X"); ("{", "x"); ("}", "Y"); (";", "y"); (":", "Z"); ("'", "z");
    (dquote, "1"); (",", "2"); ("/", "3"); ("`", "4");
    ("\", "6"); ("|", "7"); ("=", "8");
    (newline, "0");
    (tab, "T");
    (" ", "9") ].

(** [rev_table = {v: k for k, v in table.items()}] *)
Definition rev_table : Py.dict string :=
  Py.of_items (map (fun kv => (snd kv, fst kv)) table).

Definition base_62 : string :=
  "0123456789abcdefghijklmnopqrstuvwxyzABCDEFGHIJKLMNOPQRSTUVWXYZ".

(** ** [_form_ident] *)

(** One turn of the loop body: [s] is the loop variable of
    [range(0, len(x), 63)], and the slice bounds multiply it by 63 again. *)
Definition ident_frame (x : string) (s : nat) : result string :=
  let segment := Py.slice x (s * 63) ((s + 1) * 63) in
  digit <- Py.getitem base_62 (Z.of_nat (String.length segment) - 1) ;;
  Ok ("5" ++ digit ++ segment).

Definition _form_ident (x : string) : result string :=
  segments <- foldM (fun segments s =>
                       frame <- ident_frame x s ;; Ok (segments ++ [frame])%list)
                    (Py.range 0 (String.length x) 63) [] ;;
  Ok (String.concat "" segments).

(** ** The keyword pattern [_kywds] and [re.split] *)

(** [_kywds] is the alternation, inside one capturing group, of the escaped
    keys of [table] in iteration order; escaped, each alternative matches its
    key literally. *)
Definition _kywds : list string := Py.keys table.

(** The alternatives are tried in order at one position: the first that is a
    prefix of the remaining text matches. *)
Definition match_here (alts : list string) (s : string) : option string :=
  find (fun lit => String.prefix lit s) alts.

(** The leftmost match in [s]: where it starts and the text it matched. *)
Fixpoint re_search (alts : list string) (s : string) : option (nat * string) :=
  match match_here alts s with
  | Some m => Some (0, m)
  | None =>
      match s with
      | EmptyString => None
      | String _ s' =>
          match re_search alts s' with
          | Some (p, m) => Some (S p, m)
          | None => None
          end
      end
  end.

Definition inspect {A : Type} (a : A) : {b : A | a = b} := exist _ a eq_refl.

(** Facts about [string] that the termination of [re_split] rests on. *)
Lemma slice_from_length (s : string) (n : nat) :
  String.length (Py.slice_from s n) = String.length s - n.
Proof.
  unfold Py.slice_from. revert n.
  induction s as [|c s IH]; intros [|n]; simpl; auto.
  f_equal. specialize (IH 0). rewrite Nat.sub_0_r in IH. exact IH.
Qed.

Lemma prefix_length (a s : string) :
  String.prefix a s = true -> String.length a <= String.length s.
Proof.
  revert s. induction a as [|c a IH]; intros [|d s]; simpl; try lia; try discriminate.
  destruct (ascii_dec c d); [|discriminate]. intros H. apply IH in H. lia.
Qed.

Lemma re_search_bounds (alts : list string) (s : string) (p : nat) (m : string) :
  re_search alts s = Some (p, m) ->
  In m alts /\ p + String.length m <= String.length s.
Proof.
  revert p. induction s as [|c s IH]; intros p; simpl.
  - destruct (match_here alts "") as [m'|] eqn:E; [|discriminate].
    intros [= <- <-]. apply find_some in E. destruct E as [Hin Hp].
    split; [exact Hin|]. apply prefix_length in Hp. simpl in *. lia.
  - destruct (match_here alts (String c s)) as [m'|] eqn:E.
    + intros [= <- <-]. apply find_some in E. destruct E as [Hin Hp].
      split; [exact Hin|]. apply prefix_length in Hp. simpl in *. lia.
    + destruct (re_search alts s) as [[p' m']|]; [|discriminate].
      intros [= <- <-]. destruct (IH p' eq_refl) as [Hin Hle].
      split; [exact Hin|]. lia.
Qed.

Lemma _kywds_nonempty (m : string) : In m _kywds -> 0 < String.length m.
Proof.
  assert (H : forallb (fun k => (0 <? String.length k)%nat) _kywds = true)
    by (vm_compute; reflexivity).
  rewrite forallb_forall in H. intros Hin. apply H in Hin.
  now apply Nat.ltb_lt.
Qed.

(** [re.split(_kywds, s)]: the text before each match, then the match (the
    pattern's one group), and at the end the text after the last match.  No
    alternative of [_kywds] is empty, so every match consumes a character. *)
Equations re_split (s : string) : list string by wf (String.length s) lt :=
re_split s with inspect (re_search _kywds s) := {
  | exist _ None _ => [s]
  | exist _ (Some (p, m)) Hm =>
      Py.slice s 0 p :: m :: re_split (Py.slice_from s (p + String.length m)) }.
Next Obligation.
  apply re_search_bounds in Hm. destruct Hm as [Hin Hle].
  apply _kywds_nonempty in Hin. rewrite slice_from_length. lia.
Qed.

(** ** [_encode] *)

(** The body of the [for x in re.split(_kywds, txt)] loop: an empty segment
    is skipped, a key of [table] ([x in table]) adds its code [table[x]],
    and any other segment adds its frames. *)
Definition encode_segment (payload_string x : string) : result string :=
  if (x =? "")%string then Ok payload_string
  else
    match Py.get table x with
    | Some code => Ok (payload_string ++ code)
    | None => frames <- _form_ident x ;; Ok (payload_string ++ frames)
    end.

(** [payload_string] when the loop is left. *)
Definition encode_payload (txt : string) : result string :=
  foldM encode_segment (re_split txt) "".

Section Codec.

(** [deflate64 s] stands for
    [base64.encodebytes(zlib.compress(s.encode())).decode("ascii")], and
    [inflate64 s] for
    [zlib.decompress(base64.decodebytes(s.encode("ascii"))).decode()], which
    raises on a body it cannot decode. *)
Variable deflate64 : string -> string.
Variable inflate64 : string -> option string.

Definition _encode (txt : string) (threshold_length : Z) : result string :=
  payload_string <- encode_payload txt ;;
  if (Z.of_nat (String.length payload_string) >? threshold_length)%Z then
    let encoded := "1" ++ deflate64 payload_string in
    Ok (if (String.length encoded <? String.length payload_string + 1)%nat
        then encoded
        else "0" ++ payload_string)
  else Ok ("0" ++ payload_string).

(** ** [_decode] *)

(** One turn of the [while] loop, entered with [pointer < len(text)]: the
    new [pointer] and [payload], or the exception that leaves the loop. *)
Definition decode_step (text : string) (pointer : nat) (payload : string)
  : result (nat * string) :=
  x <- Py.getitem text (Z.of_nat pointer) ;;
  let pointer := pointer + 1 in
  match Py.get rev_table x with
  | Some literal => Ok (pointer, payload ++ literal)
  | None =>
      if negb (x =? "5")%string then Raise (ValueError_invalid_symbol x)
      else
        d <- Py.getitem text (Z.of_nat pointer) ;;
        i <- Py.index base_62 d ;;
        let length := i + 1 in
        let pointer := pointer + 1 in
        Ok (pointer + length,
            payload ++ Py.slice text pointer (pointer + length))
  end.

Lemma decode_step_advances text pointer payload pointer' payload' :
  decode_step text pointer payload = Ok (pointer', payload') ->
  pointer < pointer'.
Proof.
  unfold decode_step, bind.
  destruct (Py.getitem text (Z.of_nat pointer)) as [x|]; [|discriminate].
  destruct (Py.get rev_table x); [intros [= <- _]; lia|].
  destruct (negb (x =? "5")%string); [discriminate|].
  destruct (Py.getitem text (Z.of_nat (pointer + 1))) as [d|]; [|discriminate].
  destruct (Py.index base_62 d); [|discriminate].
  intros [= <- _]. lia.
Qed.

(** [while pointer < len(text): ...] followed by [return payload]. *)
Equations decode_loop (text : string) (pointer : nat) (payload : string)
  : result string by wf (String.length text - pointer) lt :=
decode_loop text pointer payload with lt_dec pointer (String.length text) := {
  | right _ => Ok payload
  | left _ with inspect (decode_step text pointer payload) := {
      | exist _ (Raise e) _ => Raise e
      | exist _ (Ok (pointer', payload')) Hstep =>
          decode_loop text pointer' payload' } }.
Next Obligation.
  apply decode_step_advances in Hstep. lia.
Qed.

(** The first lines of [_decode]: the flag is read and the body, inflated
    when the flag is ["1"], is the text the loop walks. *)
Definition decode_body (text : string) : result string :=
  compression <- Py.getitem text 0 ;;
  let text := Py.slice_from text 1 in
  if (compression =? "1")%string
  then match inflate64 text with
       | Some raw => Ok raw
       | None => Raise DecompressError
       end
  else Ok text.

Definition _decode (text : string) : result string :=
  text <- decode_body text ;;
  decode_loop text 0 "".

End Codec.

(** ** [compress] and [decompress] *)

(** How a call of [compress] ends: with its string, with what
    [python_minifier.minify] raised (a [SyntaxError] on text it cannot
    parse), or with what [_encode] raised. *)
Inductive compress_outcome (minify_exn : Type) : Type :=
| Returned (compressed : string)
| MinifyRaised (e : minify_exn)
| EncodeRaised (e : exn).

Arguments Returned {minify_exn} compressed.
Arguments MinifyRaised {minify_exn} e.
Arguments EncodeRaised {minify_exn} e.

Section Callers.

Variable deflate64 : string -> string.
Variable inflate64 : string -> option string.

(** [quote s] stands for [urllib.parse.quote(s, safe="")] and [unquote s]
    for [urllib.parse.unquote(s)]. *)
Variable quote : string -> string.
Variable unquote : string -> string.

(** [minify code options remove_debug] stands for the call of
    [python_minifier.minify]: [options] holds the thirteen keyword arguments
    that [compress] hands over unchanged, and [__debug__] is the
    interpreter's constant. *)
Variable minify_options : Type.
Variable minify_exn : Type.
Variable minify : string -> minify_options -> bool -> minify_exn + string.
Variable __debug__ : bool.

Definition compress (code : string) (url_safe : bool) (threshold_length : Z)
    (options : minify_options) (remove_debug : option bool)
  : compress_outcome minify_exn :=
  let remove_debug :=
    match remove_debug with
    | None => negb __debug__
    | Some b => b
    end in
  match minify code options remove_debug with
  | inl e => MinifyRaised e
  | inr minify =>
      match _encode deflate64 minify threshold_length with
      | Raise e => EncodeRaised e
      | Ok compressed =>
          Returned (if url_safe then quote compressed else compressed)
      end
  end.

Definition decompress (compressed_data : string) : result string :=
  let string := unquote compressed_data in
  _decode inflate64 string.

End Callers.

(** ** Vocabulary of the properties *)

(** Membership and inclusion in lists of strings, decided by evaluation. *)
Definition mem (x : string) (l : list string) : bool :=
  existsb (String.eqb x) l.

(** The digits of [base_62], each as a one-character string. *)
Definition base_62_digits : list string :=
  map Py.chr (list_ascii_of_string base_62).

(** [seg] holds no key of [table] as a substring. *)
Definition literal_free (seg : string) : Prop :=
  forall lit a b, In lit _kywds -> seg <> a ++ lit ++ b.

(** The segments the loop of [_encode] does not skip. *)
Definition nonempty (x : string) : bool := negb (x =? "")%string.

(** How the code classifies a segment: a key of [table], or text that holds
    no key of [table] anywhere inside it. *)
Definition segment_ok (seg : string) : Prop :=
  Py.get table seg = None -> literal_free seg.

(** [n] times the letter [x]: text that holds no literal of [table]. *)
Definition xs (n : nat) : string := String.concat "" (repeat "x" n).

(** The states in which the [while] loop of [_decode] tests its condition:
    [reaches text pointer payload] when, walking [text] from [pointer = 0]
    and [payload = ""], the loop comes to its head with these values.  The
    positions so reached are those where the decoder expects a token. *)
Inductive reaches (text : string) : nat -> string -> Prop :=
| reaches_start : reaches text 0 ""
| reaches_step pointer payload pointer' payload' :
    reaches text pointer payload ->
    pointer < String.length text ->
    decode_step text pointer payload = Ok (pointer', payload') ->
    reaches text pointer' payload'.

(** [walks tok x]: wherever the token text [tok] stands in a payload, the
    loop of [_decode], entering it at its first character, leaves it after
    its last with [x] appended to what was decoded. *)
Definition walks (tok x : string) : Prop :=
  forall done rest out,
    decode_loop (done ++ tok ++ rest) (String.length done) out =
    decode_loop (done ++ tok ++ rest)
                (String.length done + String.length tok) (out ++ x).

(** The tokens of a payload, as the module's format note describes them: a
    symbol is the one-character code of a literal of [table]; an ident is
    the marker ["5"], a digit of [base_62] for the length less one, and the
    span itself. *)
Inductive token : Type :=
| Symbol (literal code : string)
| Ident (digit : ascii) (span : string).

Definition wire (t : token) : string :=
  match t with
  | Symbol _ code => code
  | Ident digit span => "5" ++ Py.chr digit ++ span
  end.

Definition meaning (t : token) : string :=
  match t with
  | Symbol literal _ => literal
  | Ident _ span => span
  end.

Definition token_ok (t : token) : Prop :=
  match t with
  | Symbol literal code => Py.get table literal = Some code
  | Ident digit span =>
      1 <= String.length span /\
      Py.index base_62 (Py.chr digit) = Ok (String.length span - 1)
  end.

(** What the encoder's idents hold besides: text without any literal. *)
Definition ident_literal_free (t : token) : Prop :=
  match t with
  | Symbol _ _ => True
  | Ident _ span => literal_free span
  end.

(** The character [c] stands somewhere in [s]. *)
Definition occurs (c : ascii) (s : string) : Prop :=
  exists a b, s = a ++ String c b.

(** No character of [s] is a literal of [table]. *)
Definition safe_char (c : ascii) : bool := negb (mem (Py.chr c) _kywds).
Definition all_safe (s : string) : bool :=
  forallb safe_char (list_ascii_of_string s).

(** The value of [remove_debug] that [compress] hands to [minify]. *)
Definition effective_remove_debug (__debug__ : bool)
    (remove_debug : option bool) : bool :=
  match remove_debug with
  | None => negb __debug__
  | Some b => b
  end.

(** The identity stands in for the library codec where an instance is
    needed. *)
Definition stored (s : string) : string := s.
Definition unstored (s : string) : option string := Some s.

(** * Properties *)

(** ** The loops satisfy their defining equations *)

Lemma decode_loop_eq (text : string) (pointer : nat) (payload : string) :
  decode_loop text pointer payload =
  if (pointer <? String.length text)%nat
  then match decode_step text pointer payload with
       | Ok (pointer', payload') => decode_loop text pointer' payload'
       | Raise e => Raise e
       end
  else Ok payload.
Proof.
  funelim (decode_loop text pointer payload);
    destruct (Nat.ltb_spec pointer (String.length text)); try lia;
    try reflexivity.
  - rewrite Hstep. reflexivity.
  - match goal with H : decode_step _ _ _ = Raise _ |- _ => rewrite H end.
    reflexivity.
Qed.

Lemma re_split_eq (s : string) :
  re_split s =
  match re_search _kywds s with
  | None => [s]
  | Some (p, m) =>
      Py.slice s 0 p :: m :: re_split (Py.slice_from s (p + String.length m))
  end.
Proof.
  funelim (re_split s).
  - rewrite Hm. reflexivity.
  - match goal with H : re_search _ _ = None |- _ => rewrite H end.
    reflexivity.
Qed.

(** ** Strings *)

Section StringFacts.

Implicit Types a b c s : string.

Lemma append_nil_r s : s ++ "" = s.
Proof. induction s; simpl; congruence. Qed.

Lemma append_assoc a b c : (a ++ b) ++ c = a ++ (b ++ c).
Proof. induction a; simpl; congruence. Qed.

Lemma length_append a b :
  String.length (a ++ b) = String.length a + String.length b.
Proof. induction a; simpl; congruence. Qed.

Lemma substring_skip a b n m :
  String.substring (String.length a + n) m (a ++ b) = String.substring n m b.
Proof. induction a; simpl; auto. Qed.

Lemma substring_take a b :
  String.substring 0 (String.length a) (a ++ b) = a.
Proof.
  induction a as [|x a IH]; simpl.
  - destruct b; reflexivity.
  - now rewrite IH.
Qed.

Lemma substring_all s m :
  String.length s <= m -> String.substring 0 m s = s.
Proof.
  revert m. induction s as [|x s IH]; intros [|m]; simpl; intros H;
    try reflexivity; try lia.
  rewrite IH by lia. reflexivity.
Qed.

Lemma substring_length s n m :
  String.length (String.substring n m s) = Nat.min m (String.length s - n).
Proof.
  revert n m. induction s as [|x s IH]; intros [|n] [|m]; simpl; auto.
  rewrite (IH 0 m), Nat.sub_0_r. reflexivity.
Qed.

Lemma slice_from_app a b : Py.slice_from (a ++ b) (String.length a) = b.
Proof.
  unfold Py.slice_from.
  rewrite <- (Nat.add_0_r (String.length a)) at 1.
  rewrite substring_skip, length_append.
  apply substring_all. lia.
Qed.

Lemma slice_app a b c n :
  n = String.length b ->
  Py.slice (a ++ b ++ c) (String.length a) (String.length a + n) = b.
Proof.
  intros ->. unfold Py.slice.
  rewrite <- (Nat.add_0_r (String.length a)) at 1.
  rewrite substring_skip.
  replace (String.length a + String.length b - String.length a)
    with (String.length b) by lia.
  apply substring_take.
Qed.

Lemma get_app a x b : String.get (String.length a) (a ++ String x b) = Some x.
Proof. induction a; simpl; auto. Qed.

Lemma getitem_app a x b :
  Py.getitem (a ++ String x b) (Z.of_nat (String.length a)) = Ok (Py.chr x).
Proof.
  unfold Py.getitem. rewrite length_append. simpl.
  destruct (Z.ltb_spec (Z.of_nat (String.length a)) 0); [lia|].
  destruct (Z.leb_spec 0 (Z.of_nat (String.length a))); [|lia].
  destruct (Z.ltb_spec (Z.of_nat (String.length a))
              (Z.of_nat (String.length a + S (String.length b)))); [|lia].
  simpl. rewrite Nat2Z.id, get_app. reflexivity.
Qed.

Lemma getitem_past_end s n :
  String.length s <= n -> Py.getitem s (Z.of_nat n) = Raise IndexError.
Proof.
  intros H. unfold Py.getitem.
  destruct (Z.ltb_spec (Z.of_nat n) 0); [lia|].
  destruct (Z.ltb_spec (Z.of_nat n) (Z.of_nat (String.length s))); [lia|].
  now rewrite andb_false_r.
Qed.

Lemma prefix_app a s : String.prefix a s = true <-> exists r, s = a ++ r.
Proof.
  split.
  - revert s. induction a as [|x a IH]; intros s H.
    + exists s. reflexivity.
    + destruct s as [|y s]; simpl in H; [discriminate|].
      destruct (ascii_dec x y) as [->|]; [|discriminate].
      destruct (IH _ H) as [r ->]. exists r. reflexivity.
  - intros [r ->]. induction a as [|x a IH]; simpl.
    + destruct r; reflexivity.
    + destruct (ascii_dec x x); [exact IH|congruence].
Qed.

End StringFacts.

(** ** Dictionaries and finite checks *)

Lemma get_In {V : Type} (d : Py.dict V) (k : string) (v : V) :
  Py.get d k = Some v -> In (k, v) d.
Proof.
  induction d as [|[k' v'] d IH]; simpl; [discriminate|].
  destruct (String.eqb_spec k' k) as [->|].
  - intros [= ->]. now left.
  - intros H. right. now apply IH.
Qed.

Lemma get_None_keys {V : Type} (d : Py.dict V) (k : string) :
  Py.get d k = None <-> ~ In k (Py.keys d).
Proof.
  induction d as [|[k' v'] d IH]; simpl; [tauto|].
  destruct (String.eqb_spec k' k) as [->|].
  - split; [discriminate|]. intros H. exfalso. apply H. now left.
  - rewrite IH. tauto.
Qed.

Lemma mem_In x l : mem x l = true <-> In x l.
Proof.
  unfold mem. rewrite existsb_exists. split.
  - intros (y & Hy & E). apply String.eqb_eq in E. now subst.
  - intros H. exists x. split; [exact H|apply String.eqb_refl].
Qed.

Lemma mem_incl l1 l2 : forallb (fun x => mem x l2) l1 = true -> incl l1 l2.
Proof.
  rewrite forallb_forall. intros H x Hx. apply mem_In. now apply H.
Qed.

Lemma nodup_NoDup (l : list string) : nodup string_dec l = l -> NoDup l.
Proof. intros <-. apply NoDup_nodup. Qed.

(** ** The symbol table (C7, C6) *)

(** The literals of [table]'s display are pairwise distinct, so the
    dictionary holds all 61 of them in the order written. *)
Lemma table_size : List.length table = 61 /\ List.length rev_table = 61.
Proof. split; vm_compute; reflexivity. Qed.

Lemma table_rev_table (k v : string) :
  Py.get table k = Some v -> Py.get rev_table v = Some k.
Proof.
  intros H. apply get_In in H.
  assert (C : forallb (fun kv => match Py.get rev_table (snd kv) with
                                 | Some k' => (k' =? fst kv)%string
                                 | None => false
                                 end) table = true)
    by (vm_compute; reflexivity).
  rewrite forallb_forall in C. specialize (C _ H). cbn [fst snd] in C.
  destruct (Py.get rev_table v) as [k'|]; [|discriminate].
  apply String.eqb_eq in C. now subst.
Qed.

Lemma rev_table_table (v k : string) :
  Py.get rev_table v = Some k -> Py.get table k = Some v.
Proof.
  intros H. apply get_In in H.
  assert (C : forallb (fun vk => match Py.get table (snd vk) with
                                 | Some v' => (v' =? fst vk)%string
                                 | None => false
                                 end) rev_table = true)
    by (vm_compute; reflexivity).
  rewrite forallb_forall in C. specialize (C _ H). cbn [fst snd] in C.
  destruct (Py.get table k) as [v'|]; [|discriminate].
  apply String.eqb_eq in C. now subst.
Qed.

(** C7: [table] is a bijection between its literals and its codes, and
    [rev_table] is its inverse: the literals are pairwise distinct, the codes
    are pairwise distinct (every code appears exactly once), [rev_table] has
    as many entries as [table], no two literals share a code, and looking a
    literal's code up in [rev_table] gives the literal back, as looking a
    code's literal up in [table] gives the code back. *)
Theorem table_bijection :
  NoDup (Py.keys table) /\
  NoDup (Py.values table) /\
  (forall v, In v (Py.values table) -> count_occ string_dec (Py.values table) v = 1) /\
  List.length rev_table = List.length table /\
  (forall k1 k2 v,
      Py.get table k1 = Some v -> Py.get table k2 = Some v -> k1 = k2) /\
  (forall k v, Py.get table k = Some v -> Py.get rev_table v = Some k) /\
  (forall v k, Py.get rev_table v = Some k -> Py.get table k = Some v).
Proof.
  assert (Hv : NoDup (Py.values table))
    by (apply nodup_NoDup; vm_compute; reflexivity).
  split; [|split; [|split; [|split; [|split; [|split]]]]].
  - apply nodup_NoDup. vm_compute. reflexivity.
  - exact Hv.
  - intros v Hin. now apply NoDup_count_occ'.
  - vm_compute. reflexivity.
  - intros k1 k2 v H1 H2.
    apply table_rev_table in H1. apply table_rev_table in H2. congruence.
  - apply table_rev_table.
  - apply rev_table_table.
Qed.

(** C6, as the code has it: no symbol code is the frame marker ["5"] (nor is
    the marker a key of [rev_table]), but every symbol code is a digit of
    [base_62]; the codes are exactly the 61 digits of [base_62] other than
    ["5"]. *)
Theorem codes_marker_and_digits :
  ~ In "5" (Py.values table) /\
  Py.get rev_table "5" = None /\
  incl (Py.values table) base_62_digits /\
  (forall d, In d base_62_digits -> d = "5" \/ In d (Py.values table)).
Proof.
  split; [|split; [|split]].
  - rewrite <- mem_In. vm_compute. discriminate.
  - vm_compute. reflexivity.
  - apply mem_incl. vm_compute. reflexivity.
  - intros d Hd.
    assert (C : forallb (fun d => (d =? "5")%string || mem d (Py.values table))
                  base_62_digits = true) by (vm_compute; reflexivity).
    rewrite forallb_forall in C. specialize (C _ Hd).
    apply orb_true_iff in C. destruct C as [C|C].
    + left. now apply String.eqb_eq.
    + right. now apply mem_In.
Qed.

(** C6 as stated fails: ["A"], the code of ["False"], is a digit of
    [base_62] (its digit 36). *)
Lemma code_A_is_base_62_digit :
  Py.get table "False" = Some "A" /\
  In "A" (Py.values table) /\
  In "A" base_62_digits /\
  Py.index base_62 "A" = Ok 36.
Proof.
  split; [|split; [|split]].
  - vm_compute. reflexivity.
  - apply mem_In. vm_compute. reflexivity.
  - apply mem_In. vm_compute. reflexivity.
  - vm_compute. reflexivity.
Qed.

(** ** The tokenizer (C8, C10) *)

Lemma concat_cons (x : string) (l : list string) :
  String.concat "" (x :: l) = x ++ String.concat "" l.
Proof. destruct l; simpl; [now rewrite append_nil_r|reflexivity]. Qed.

(** Of the alternatives that match at a position, the one tried first wins. *)
Lemma match_here_first (alts : list string) (s m : string) :
  match_here alts s = Some m ->
  exists i, nth_error alts i = Some m /\ String.prefix m s = true /\
            forall j b, nth_error alts j = Some b ->
                        String.prefix b s = true -> i <= j.
Proof.
  unfold match_here. induction alts as [|a alts IH]; simpl; [discriminate|].
  destruct (String.prefix a s) eqn:E.
  - intros [= <-]. exists 0. repeat split; auto. intros; lia.
  - intros H. destruct (IH H) as (i & Hi & Hp & Hmin).
    exists (S i). repeat split; auto.
    intros [|j] b Hj Hb; simpl in Hj.
    + injection Hj as <-. congruence.
    + apply Hmin in Hj; auto. lia.
Qed.

Lemma match_here_some (alts : list string) (s a : string) :
  In a alts -> String.prefix a s = true ->
  exists m, match_here alts s = Some m.
Proof.
  intros Hin Hp. unfold match_here.
  destruct (find (fun lit => String.prefix lit s) alts) as [m|] eqn:E.
  - now exists m.
  - apply (find_none _ _ E) in Hin. congruence.
Qed.

(** A match found by [re_search] splits the text around it, and no
    alternative matches at any earlier position. *)
Lemma re_search_Some (alts : list string) (s : string) (p : nat) (m : string) :
  re_search alts s = Some (p, m) ->
  exists pre post,
    s = pre ++ m ++ post /\ String.length pre = p /\
    match_here alts (m ++ post) = Some m /\
    forall a b, s = a ++ b -> String.length a < p -> match_here alts b = None.
Proof.
  revert p. induction s as [|c s IH]; intros p; simpl.
  - destruct (match_here alts "") as [m'|] eqn:E; [|discriminate].
    intros [= <- <-]. pose proof E as E'. apply find_some in E'.
    destruct E' as [_ Hp]. apply prefix_app in Hp. destruct Hp as [r Hr].
    exists "", r. simpl. rewrite <- Hr. repeat split; auto. intros; lia.
  - destruct (match_here alts (String c s)) as [m'|] eqn:E.
    + intros [= <- <-]. pose proof E as E'. apply find_some in E'.
      destruct E' as [_ Hp]. apply prefix_app in Hp. destruct Hp as [r Hr].
      exists "", r. simpl. rewrite <- Hr. repeat split; auto. intros; lia.
    + destruct (re_search alts s) as [[p' m']|]; [|discriminate].
      intros [= <- <-].
      destruct (IH p' eq_refl) as (pre & post & -> & <- & Hm & Hnone).
      exists (String c pre), post. repeat split; auto.
      intros [|c' a] b Hab Hlen; simpl in Hab.
      * now subst b.
      * injection Hab as <- Hab. apply (Hnone a b Hab). simpl in Hlen. lia.
Qed.

Lemma re_search_None (alts : list string) (s : string) :
  re_search alts s = None ->
  forall a b, s = a ++ b -> match_here alts b = None.
Proof.
  induction s as [|c s IH]; simpl.
  - destruct (match_here alts "") eqn:E; [discriminate|].
    intros _ [|c a] b Hab; simpl in Hab; [now subst b|discriminate].
  - destruct (match_here alts (String c s)) eqn:E; [discriminate|].
    destruct (re_search alts s) as [[p m]|]; [discriminate|].
    intros _ [|c' a] b Hab; simpl in Hab.
    + now subst b.
    + injection Hab as <- Hab. now apply (IH eq_refl a b).
Qed.

Lemma no_match_literal_free (seg rest : string) :
  (forall a b, seg ++ rest = a ++ b -> String.length a < String.length seg ->
               match_here _kywds b = None) ->
  literal_free seg.
Proof.
  intros Hnone lit a b Hin ->.
  specialize (Hnone a ((lit ++ b) ++ rest)).
  rewrite !append_assoc in Hnone. specialize (Hnone eq_refl).
  apply _kywds_nonempty in Hin as Hpos.
  rewrite !length_append in Hnone. specialize (Hnone ltac:(lia)).
  destruct (match_here_some _kywds (lit ++ b ++ rest) lit Hin) as [m Hm].
  - apply prefix_app. now exists (b ++ rest).
  - congruence.
Qed.

Lemma concat_filter_cons (x : string) (l : list string) :
  String.concat "" (filter nonempty (x :: l)) =
  x ++ String.concat "" (filter nonempty l).
Proof.
  simpl. unfold nonempty at 1.
  destruct (String.eqb_spec x "") as [->|]; simpl; [reflexivity|].
  apply concat_cons.
Qed.

Lemma no_match_segment (s : string) :
  re_search _kywds s = None ->
  String.concat "" (filter nonempty [s]) = s /\ Forall segment_ok [s].
Proof.
  intros E. split.
  - rewrite concat_filter_cons. simpl. apply append_nil_r.
  - constructor; [|constructor]. intros _.
    apply (no_match_literal_free s ""). intros a b Hab _.
    rewrite append_nil_r in Hab. exact (re_search_None _ _ E a b Hab).
Qed.

Lemma re_split_spec (n : nat) (s : string) :
  String.length s <= n ->
  String.concat "" (filter nonempty (re_split s)) = s /\
  Forall segment_ok (re_split s).
Proof.
  revert s. induction n as [|n IH]; intros s Hn; rewrite re_split_eq;
    destruct (re_search _kywds s) as [[p m]|] eqn:E;
    try (now apply no_match_segment).
  - exfalso. apply re_search_bounds in E. destruct E as [Hin Hle].
    apply _kywds_nonempty in Hin. lia.
  - pose proof (re_search_bounds _ _ _ _ E) as [Hin _].
    apply re_search_Some in E.
    destruct E as (pre & post & -> & <- & Hm & Hnone).
    assert (Hpre : Py.slice (pre ++ m ++ post) 0 (String.length pre) = pre)
      by (unfold Py.slice; rewrite Nat.sub_0_r; apply substring_take).
    assert (Hpost : Py.slice_from (pre ++ m ++ post)
                      (String.length pre + String.length m) = post)
      by (rewrite <- append_assoc, <- length_append; apply slice_from_app).
    rewrite Hpre, Hpost.
    apply _kywds_nonempty in Hin as Hpos.
    destruct (IH post) as [Hcat Hall].
    { rewrite !length_append in Hn. lia. }
    split.
    + rewrite !concat_filter_cons, Hcat. reflexivity.
    + constructor; [|constructor; [|exact Hall]].
      * intros _. apply (no_match_literal_free pre (m ++ post)). exact Hnone.
      * intros Hget. apply get_None_keys in Hget. contradiction.
Qed.

(** C10: the segments of [re.split(_kywds, txt)], the empty ones dropped,
    concatenate in order to [txt], and every segment that is not a key of
    [table] holds no key of [table] as a substring. *)
Theorem split_covers_input (txt : string) :
  String.concat "" (filter nonempty (re_split txt)) = txt /\
  Forall (fun seg =>
            Py.get table seg = None ->
            forall lit a b, In lit (Py.keys table) -> seg <> a ++ lit ++ b)
         (re_split txt).
Proof. exact (re_split_spec (String.length txt) txt (le_n _)). Qed.

Lemma match_here_none (alts : list string) (s : string) :
  (forall lit, In lit alts -> String.prefix lit s = false) ->
  match_here alts s = None.
Proof.
  intros H. unfold match_here.
  destruct (find (fun lit => String.prefix lit s) alts) as [m|] eqn:E;
    [|reflexivity].
  apply find_some in E. destruct E as [Hin Hp]. rewrite (H _ Hin) in Hp.
  discriminate.
Qed.

(** The search stops at the first position where an alternative matches. *)
Lemma re_search_at (alts : list string) (pre s m : string) :
  (forall x y, pre ++ s = x ++ y -> String.length x < String.length pre ->
               match_here alts y = None) ->
  match_here alts s = Some m ->
  re_search alts (pre ++ s) = Some (String.length pre, m).
Proof.
  intros Hnone Hm. induction pre as [|c pre IH].
  - destruct s; cbn [append re_search]; rewrite Hm; reflexivity.
  - cbn [append re_search String.length].
    rewrite (Hnone "" (String c (pre ++ s)) eq_refl) by (simpl; lia).
    rewrite IH; [reflexivity|].
    intros x y E Hlt. apply (Hnone (String c x) y).
    + simpl. now rewrite E.
    + simpl. lia.
Qed.

Lemma slice_from_skip (a b : string) (n : nat) :
  Py.slice_from (a ++ b) (String.length a + n) = Py.slice_from b n.
Proof.
  unfold Py.slice_from. rewrite substring_skip, length_append.
  f_equal. lia.
Qed.

Lemma re_split_at (pre s m : string) :
  (forall x y, pre ++ s = x ++ y -> String.length x < String.length pre ->
               match_here _kywds y = None) ->
  match_here _kywds s = Some m ->
  re_split (pre ++ s) =
  pre :: m :: re_split (Py.slice_from s (String.length m)).
Proof.
  intros Hnone Hm. rewrite re_split_eq, (re_search_at _ _ _ _ Hnone Hm).
  unfold Py.slice. rewrite Nat.sub_0_r, substring_take, slice_from_skip.
  reflexivity.
Qed.

Lemma match_here_elif (rest : string) :
  match_here _kywds ("elif" ++ rest) = Some "elif".
Proof. destruct rest; vm_compute; reflexivity. Qed.

(** C8: let the tokenizer's scan stand at a position of the input, [pre]
    being the text since the last token (no literal of [table] matches at
    any position inside it) and [s] the text from the position on.  If
    literals of [table] match at the position, the token taken there is the
    matching literal that comes first in [table]'s iteration order, and the
    scan goes on behind it.  So a text that begins with ["elif"], which
    stands before ["if"] in [table], yields the token ["elif"], with no
    unknown text before it. *)
Theorem first_match_wins :
  (forall pre s a,
      (forall x y lit,
          pre ++ s = x ++ y -> String.length x < String.length pre ->
          In lit (Py.keys table) -> String.prefix lit y = false) ->
      In a (Py.keys table) -> String.prefix a s = true ->
      exists m i,
        nth_error (Py.keys table) i = Some m /\
        String.prefix m s = true /\
        (forall j b, nth_error (Py.keys table) j = Some b ->
                     String.prefix b s = true -> i <= j) /\
        re_split (pre ++ s) =
        pre :: m :: re_split (Py.slice_from s (String.length m))) /\
  (nth_error (Py.keys table) 31 = Some "elif" /\
   nth_error (Py.keys table) 32 = Some "if") /\
  (forall rest, re_split ("elif" ++ rest) = "" :: "elif" :: re_split rest).
Proof.
  split; [|split; [split; reflexivity|]].
  - intros pre s a Hfree Hin Hp.
    destruct (match_here_some _kywds s a Hin Hp) as [m Hm].
    destruct (match_here_first _ _ _ Hm) as (i & Hi & Hpm & Hmin).
    exists m, i. repeat split; auto. apply re_split_at; [|exact Hm].
    intros x y E Hlt. apply match_here_none. intros lit Hlit.
    now apply (Hfree x y lit).
  - intros rest.
    change (re_split ("elif" ++ rest)) with (re_split ("" ++ "elif" ++ rest)).
    rewrite (re_split_at "" _ _ ltac:(simpl; intros; lia) (match_here_elif rest)).
    repeat f_equal. apply (slice_from_app "elif" rest).
Qed.

(** ["as"] comes before ["assert"] in [table], so behind the unknown text
    ["x"] it is ["as"] that is taken from ["xassert"]. *)
Lemma first_match_wins_assert :
  exists m i,
    nth_error (Py.keys table) i = Some m /\
    String.prefix m "assert" = true /\
    (forall j b, nth_error (Py.keys table) j = Some b ->
                 String.prefix b "assert" = true -> i <= j) /\
    re_split ("x" ++ "assert") =
    "x" :: m :: re_split (Py.slice_from "assert" (String.length m)).
Proof.
  apply (proj1 first_match_wins "x" "assert" "assert").
  - intros [|c x] y lit E Hlt Hin; [|simpl in Hlt; lia].
    simpl in E. subst y.
    assert (C : forallb (fun lit => negb (String.prefix lit "xassert"))
                  (Py.keys table) = true) by (vm_compute; reflexivity).
    rewrite forallb_forall in C. apply C in Hin.
    now apply negb_true_iff in Hin.
  - apply mem_In. vm_compute. reflexivity.
  - vm_compute. reflexivity.
Defined.

Example re_split_xassert : re_split "xassert" = ["x"; "as"; "sert"].
Proof. vm_compute. reflexivity. Qed.

Example encode_payload_elif : encode_payload "elif" = Ok "p".
Proof. vm_compute. reflexivity. Qed.

Example re_split_assert : re_split "assert x" = [""; "as"; "sert"; " "; "x"].
Proof. vm_compute. reflexivity. Qed.

Example re_split_if_xyz : re_split "if xyz" = [""; "if"; ""; " "; "xyz"].
Proof. vm_compute. reflexivity. Qed.

(** ** The ident framer (C2) *)

(** [base_62] has 62 digits: subscripts 0 to 61 give a digit, and
    [base_62.index] of that digit gives the subscript back. *)
Lemma base_62_digit (n : nat) :
  n < 62 ->
  exists c, Py.getitem base_62 (Z.of_nat n) = Ok (Py.chr c) /\
            Py.index base_62 (Py.chr c) = Ok n.
Proof.
  intros H.
  assert (C : forallb (fun n =>
                match Py.getitem base_62 (Z.of_nat n) with
                | Ok (String c EmptyString) =>
                    match Py.index base_62 (Py.chr c) with
                    | Ok i => (i =? n)%nat
                    | Raise _ => false
                    end
                | _ => false
                end) (seq 0 62) = true) by (vm_compute; reflexivity).
  rewrite forallb_forall in C. specialize (C n).
  rewrite in_seq in C. specialize (C ltac:(lia)).
  destruct (Py.getitem base_62 (Z.of_nat n)) as [[|c [|? ?]]|];
    try discriminate.
  exists c. destruct (Py.index base_62 (Py.chr c)); [|discriminate].
  apply Nat.eqb_eq in C. subst. split; reflexivity.
Qed.

Lemma base_62_length : String.length base_62 = 62.
Proof. reflexivity. Qed.

(** A segment of at most 63 characters is visited once, with [s = 0]. *)
Lemma range_once (n : nat) : 1 <= n <= 63 -> Py.range 0 n 63 = [0].
Proof.
  intros H. unfold Py.range.
  replace ((n - 0 + (63 - 1)) / 63) with 1; [reflexivity|].
  apply (Nat.div_unique _ 63 1 (n - 1)); lia.
Qed.

Lemma range_first (n : nat) :
  1 <= n -> exists rest, Py.range 0 n 63 = 0 :: rest.
Proof.
  intros H. unfold Py.range.
  destruct ((n - 0 + (63 - 1)) / 63) as [|k] eqn:E.
  - apply Nat.div_small_iff in E; lia.
  - simpl. eauto.
Qed.

(** A segment of 1 to 62 characters becomes one frame: the marker, the
    digit whose subscript in [base_62] is the length less one, the segment. *)
Lemma _form_ident_short (x : string) :
  1 <= String.length x <= 62 ->
  exists d, _form_ident x = Ok ("5" ++ Py.chr d ++ x) /\
            Py.index base_62 (Py.chr d) = Ok (String.length x - 1).
Proof.
  intros H. unfold _form_ident. rewrite range_once by lia.
  cbn [foldM bind]. unfold ident_frame.
  change (0 * 63) with 0. change ((0 + 1) * 63) with 63.
  unfold Py.slice. rewrite Nat.sub_0_r, substring_all by lia.
  destruct (base_62_digit (String.length x - 1)) as (d & Hd & Hi); [lia|].
  replace (Z.of_nat (String.length x) - 1)%Z
    with (Z.of_nat (String.length x - 1)) by lia.
  rewrite Hd. cbn [bind app String.concat]. exists d. split; [|exact Hi].
  reflexivity.
Qed.

(** A segment of 63 characters or more raises [IndexError] at the first
    frame: its 63 characters would need the digit [base_62[62]]. *)
Lemma _form_ident_long (x : string) :
  63 <= String.length x -> _form_ident x = Raise IndexError.
Proof.
  intros H. unfold _form_ident.
  destruct (range_first (String.length x)) as [rest ->]; [lia|].
  cbn [foldM bind]. unfold ident_frame.
  change (0 * 63) with 0. change ((0 + 1) * 63) with 63.
  unfold Py.slice. rewrite substring_length.
  replace (Nat.min (63 - 0) (String.length x - 0)) with 63 by lia.
  reflexivity.
Qed.

Lemma _form_ident_empty : _form_ident "" = Ok "".
Proof. reflexivity. Qed.

(** C2, at its boundary: a segment of 62 characters becomes one frame with
    the digit ["Z"], and a segment of 63 characters, which the claim wants
    split into two frames, raises [IndexError] instead. *)
Theorem form_ident_boundary :
  _form_ident (xs 62) = Ok ("5Z" ++ xs 62) /\
  _form_ident (xs 63) = Raise IndexError.
Proof. split; vm_compute; reflexivity. Qed.

(** C1, at the same input: on a text of 63 characters that holds no literal
    [_encode] raises [IndexError], whatever the threshold, so encoding and
    then decoding does not give the text back. *)
Theorem encode_long_run_raises :
  forall (deflate64 : string -> string) (inflate64 : string -> option string)
         (threshold_length : Z),
    _encode deflate64 (xs 63) threshold_length = Raise IndexError /\
    (artifact <- _encode deflate64 (xs 63) threshold_length ;;
     _decode inflate64 artifact) <> Ok (xs 63).
Proof.
  intros. assert (E : _encode deflate64 (xs 63) threshold_length
                      = Raise IndexError) by (vm_compute; reflexivity).
  split; [exact E|]. rewrite E. discriminate.
Qed.

(** ** The decoder's loop *)

Lemma decode_loop_done text pointer payload :
  String.length text <= pointer -> decode_loop text pointer payload = Ok payload.
Proof.
  intros H. rewrite decode_loop_eq.
  destruct (Nat.ltb_spec pointer (String.length text)); [lia|reflexivity].
Qed.

Lemma decode_loop_step text pointer payload pointer' payload' :
  pointer < String.length text ->
  decode_step text pointer payload = Ok (pointer', payload') ->
  decode_loop text pointer payload = decode_loop text pointer' payload'.
Proof.
  intros H E. rewrite decode_loop_eq, E.
  destruct (Nat.ltb_spec pointer (String.length text)); [reflexivity|lia].
Qed.

Lemma decode_loop_raise text pointer payload e :
  pointer < String.length text ->
  decode_step text pointer payload = Raise e ->
  decode_loop text pointer payload = Raise e.
Proof.
  intros H E. rewrite decode_loop_eq, E.
  destruct (Nat.ltb_spec pointer (String.length text)); [reflexivity|lia].
Qed.

Lemma reaches_loop text pointer payload :
  reaches text pointer payload ->
  decode_loop text 0 "" = decode_loop text pointer payload.
Proof.
  induction 1 as [|p acc p' acc' _ IH Hlt Hstep]; [reflexivity|].
  rewrite IH. now apply decode_loop_step.
Qed.

Lemma getitem_in_range s n x :
  Py.getitem s (Z.of_nat n) = Ok x -> n < String.length s.
Proof.
  intros H. destruct (Nat.lt_ge_cases n (String.length s)) as [|Hge]; auto.
  rewrite (getitem_past_end _ _ Hge) in H. discriminate.
Qed.

(** The three ways a turn of the loop can go on the character it reads. *)
Lemma decode_step_code text pointer payload x literal :
  Py.getitem text (Z.of_nat pointer) = Ok x ->
  Py.get rev_table x = Some literal ->
  decode_step text pointer payload = Ok (pointer + 1, payload ++ literal).
Proof.
  intros Hx Hl. unfold decode_step. rewrite Hx. cbn [bind]. now rewrite Hl.
Qed.

Lemma decode_step_invalid text pointer payload x :
  Py.getitem text (Z.of_nat pointer) = Ok x ->
  Py.get rev_table x = None -> x <> "5" ->
  decode_step text pointer payload = Raise (ValueError_invalid_symbol x).
Proof.
  intros Hx Hl Hm. unfold decode_step. rewrite Hx. cbn [bind]. rewrite Hl.
  apply String.eqb_neq in Hm. now rewrite Hm.
Qed.

Lemma decode_step_frame text pointer payload d i :
  Py.getitem text (Z.of_nat pointer) = Ok "5" ->
  Py.getitem text (Z.of_nat (pointer + 1)) = Ok d ->
  Py.index base_62 d = Ok i ->
  decode_step text pointer payload =
  Ok (pointer + 1 + 1 + (i + 1),
      payload ++ Py.slice text (pointer + 1 + 1) (pointer + 1 + 1 + (i + 1))).
Proof.
  intros Hx Hd Hi. unfold decode_step. rewrite Hx. cbn [bind].
  replace (Py.get rev_table "5") with (@None string) by reflexivity.
  cbn [negb String.eqb Ascii.eqb Bool.eqb]. rewrite Hd. cbn [bind].
  rewrite Hi. reflexivity.
Qed.

Lemma substring_clip s n m :
  String.length s - n <= m ->
  String.substring n m s = String.substring n (String.length s - n) s.
Proof.
  revert n m. induction s as [|c s IH]; intros [|n] [|m] H; simpl in *;
    try reflexivity; try lia.
  - f_equal. rewrite !substring_all by lia. reflexivity.
  - now apply IH.
  - now apply IH.
Qed.

Lemma slice_clipped s lo hi :
  String.length s <= hi -> Py.slice s lo hi = Py.slice_from s lo.
Proof. intros H. unfold Py.slice, Py.slice_from. apply substring_clip. lia. Qed.

(** ** [_decode] and the compression gate (C9, C3, C4, C5) *)

Section CodecProperties.

Variable deflate64 : string -> string.
Variable inflate64 : string -> option string.

Lemma decode_body_empty : decode_body inflate64 "" = Raise IndexError.
Proof. reflexivity. Qed.

Lemma decode_body_raw (c : ascii) (body : string) :
  Py.chr c <> "1" -> decode_body inflate64 (String c body) = Ok body.
Proof.
  intros H. unfold decode_body.
  rewrite (getitem_app "" c body : Py.getitem (String c body) 0 = _).
  cbn [bind]. apply String.eqb_neq in H. rewrite H.
  f_equal. apply (slice_from_app (Py.chr c) body).
Qed.

Lemma decode_body_flagged (body : string) :
  decode_body inflate64 ("1" ++ body) =
  match inflate64 body with
  | Some raw => Ok raw
  | None => Raise DecompressError
  end.
Proof.
  unfold decode_body.
  rewrite (getitem_app "" "1"%char body : Py.getitem ("1" ++ body) 0 = _).
  cbn [bind].
  replace (Py.slice_from ("1" ++ body) 1) with body
    by (symmetry; apply (slice_from_app "1" body)).
  reflexivity.
Qed.

(** C9: when the loop of [_decode] is at a position where it expects a token
    and the character there is neither a key of [rev_table] nor the marker
    ["5"], [_decode] raises the [ValueError] that names that character. *)
Theorem decode_rejects_invalid_symbol (text payload : string) (pointer : nat)
    (decoded x : string) :
  decode_body inflate64 text = Ok payload ->
  reaches payload pointer decoded ->
  Py.getitem payload (Z.of_nat pointer) = Ok x ->
  Py.get rev_table x = None ->
  x <> "5" ->
  _decode inflate64 text = Raise (ValueError_invalid_symbol x).
Proof.
  intros Hbody Hreach Hx Hcode Hmark. unfold _decode. rewrite Hbody.
  cbn [bind]. rewrite (reaches_loop _ _ _ Hreach).
  apply decode_loop_raise.
  - now apply getitem_in_range in Hx.
  - now apply decode_step_invalid.
Qed.

(** C3, as the code has it: when the loop of [_decode] is at a marker whose
    length digit declares more characters than remain after the digit,
    [_decode] raises nothing: the slice takes the characters that remain and
    [_decode] returns what it had decoded followed by them. *)
Theorem decode_truncates_overrun (text payload : string) (pointer : nat)
    (decoded d : string) (i : nat) :
  decode_body inflate64 text = Ok payload ->
  reaches payload pointer decoded ->
  Py.getitem payload (Z.of_nat pointer) = Ok "5" ->
  Py.getitem payload (Z.of_nat (pointer + 1)) = Ok d ->
  Py.index base_62 d = Ok i ->
  String.length payload - (pointer + 2) < i + 1 ->
  _decode inflate64 text = Ok (decoded ++ Py.slice_from payload (pointer + 2)).
Proof.
  intros Hbody Hreach Hx Hd Hi Hover. unfold _decode. rewrite Hbody.
  cbn [bind]. rewrite (reaches_loop _ _ _ Hreach).
  pose proof (getitem_in_range _ _ _ Hx) as Hlt.
  rewrite (decode_loop_step _ _ _ _ _ Hlt (decode_step_frame _ _ _ _ _ Hx Hd Hi)).
  rewrite decode_loop_done by lia.
  replace (pointer + 1 + 1) with (pointer + 2) by lia.
  rewrite slice_clipped by lia. reflexivity.
Qed.

(** At a marker the next character must be there and be a digit of
    [base_62]: without it [_decode] raises [IndexError], and on another
    character the [ValueError] of [str.index]. *)
Theorem decode_frame_header_errors (text payload : string) (pointer : nat)
    (decoded : string) :
  decode_body inflate64 text = Ok payload ->
  reaches payload pointer decoded ->
  Py.getitem payload (Z.of_nat pointer) = Ok "5" ->
  (String.length payload <= pointer + 1 ->
   _decode inflate64 text = Raise IndexError) /\
  (forall d,
      Py.getitem payload (Z.of_nat (pointer + 1)) = Ok d ->
      Py.index base_62 d = Raise ValueError_not_found ->
      _decode inflate64 text = Raise ValueError_not_found).
Proof.
  intros Hbody Hreach Hx. unfold _decode. rewrite Hbody. cbn [bind].
  rewrite (reaches_loop _ _ _ Hreach).
  pose proof (getitem_in_range _ _ _ Hx) as Hlt.
  assert (Hstep : forall e,
             (d <- Py.getitem payload (Z.of_nat (pointer + 1)) ;;
              Py.index base_62 d) = Raise e ->
             decode_step payload pointer decoded = Raise e).
  { intros e He. unfold decode_step. rewrite Hx. cbn [bind].
    replace (Py.get rev_table "5") with (@None string) by reflexivity.
    cbn [negb String.eqb Ascii.eqb Bool.eqb].
    destruct (Py.getitem payload (Z.of_nat (pointer + 1))) as [d|];
      cbn [bind] in *; [|congruence].
    destruct (Py.index base_62 d); cbn [bind]; [discriminate|congruence]. }
  split.
  - intros Hend. apply decode_loop_raise; [exact Hlt|]. apply Hstep.
    now rewrite getitem_past_end.
  - intros d Hd Hi. apply decode_loop_raise; [exact Hlt|]. apply Hstep.
    rewrite Hd. exact Hi.
Qed.

(** C4, as the code has it: what [_encode] returns begins with ["0"] or
    ["1"]; [_decode] raises [IndexError] on the empty text and inflates the
    body exactly when the first character is ["1"], raising when the body
    does not inflate; with any other first character, ["0"] or not, it walks
    the body as it stands. *)
Theorem flag_handling :
  (forall txt threshold_length r,
      _encode deflate64 txt threshold_length = Ok r ->
      exists body, r = "0" ++ body \/ r = "1" ++ body) /\
  _decode inflate64 "" = Raise IndexError /\
  (forall c body,
      Py.chr c <> "1" ->
      _decode inflate64 (String c body) = decode_loop body 0 "") /\
  (forall body raw,
      inflate64 body = Some raw ->
      _decode inflate64 ("1" ++ body) = decode_loop raw 0 "") /\
  (forall body,
      inflate64 body = None ->
      _decode inflate64 ("1" ++ body) = Raise DecompressError).
Proof.
  split; [|split; [|split; [|split]]].
  - intros txt t r. unfold _encode.
    destruct (encode_payload txt) as [p|]; cbn [bind]; [|discriminate].
    destruct (Z.of_nat (String.length p) >? t)%Z.
    + destruct (_ <? _)%nat; intros [= <-].
      * exists (deflate64 p). now right.
      * exists p. now left.
    + intros [= <-]. exists p. now left.
  - reflexivity.
  - intros c body H. unfold _decode. now rewrite decode_body_raw.
  - intros body raw H. unfold _decode. now rewrite decode_body_flagged, H.
  - intros body H. unfold _decode. now rewrite decode_body_flagged, H.
Qed.

(** C5: with [payload] the payload of [txt], [_encode] returns
    ["0" + payload] when the payload is no longer than the threshold;
    otherwise it returns the shorter of ["1" + deflate64 payload] and
    ["0" + payload] (the latter when they are equally long); either way the
    result is at most one character longer than the payload. *)
Theorem compression_gate (txt : string) (threshold_length : Z)
    (payload : string) :
  encode_payload txt = Ok payload ->
  ((Z.of_nat (String.length payload) <= threshold_length)%Z ->
   _encode deflate64 txt threshold_length = Ok ("0" ++ payload)) /\
  ((Z.of_nat (String.length payload) > threshold_length)%Z ->
   exists r,
     _encode deflate64 txt threshold_length = Ok r /\
     (r = "1" ++ deflate64 payload \/ r = "0" ++ payload) /\
     String.length r =
       Nat.min (String.length ("1" ++ deflate64 payload))
               (String.length ("0" ++ payload)) /\
     (String.length ("1" ++ deflate64 payload) = String.length ("0" ++ payload) ->
      r = "0" ++ payload)) /\
  (exists r,
     _encode deflate64 txt threshold_length = Ok r /\
     String.length r <= String.length payload + 1).
Proof.
  intros Hp. unfold _encode. rewrite Hp. cbn [bind].
  destruct (Z.gtb_spec (Z.of_nat (String.length payload)) threshold_length)
    as [Hgt|Hle].
  - destruct (Nat.ltb_spec (String.length ("1" ++ deflate64 payload))
                (String.length payload + 1)) as [Hlt|Hge].
    + split; [lia|]. split.
      * intros _. eexists. split; [reflexivity|]. simpl in *.
        split; [now left|]. split; lia.
      * eexists. split; [reflexivity|]. lia.
    + split; [lia|]. split.
      * intros _. eexists. split; [reflexivity|]. simpl in *.
        split; [now right|]. split; [lia|reflexivity].
      * eexists. split; [reflexivity|]. simpl. lia.
  - split; [reflexivity|]. split; [lia|].
    eexists. split; [reflexivity|]. simpl. lia.
Qed.

End CodecProperties.

(** The two inputs on which C3 and C4 as stated fail. *)

(** C3 as stated fails: in ["05Zab"] the frame declares 62 characters and
    two remain; [_decode] returns ["ab"]. *)
Lemma decode_overrun_returns :
  Py.index base_62 "Z" = Ok 61 /\
  String.length "ab" < 61 + 1 /\
  forall inflate64, _decode inflate64 "05Zab" = Ok "ab".
Proof. split; [|split]; [reflexivity|simpl; lia|reflexivity]. Qed.

(** C4 as stated fails: ["2Q"] begins with neither ["0"] nor ["1"], and
    [_decode] returns ["if"]. *)
Lemma decode_accepts_other_flag :
  Py.getitem "2Q" 0 = Ok "2" /\
  forall inflate64, _decode inflate64 "2Q" = Ok "if".
Proof. split; reflexivity. Qed.

(** ** Decoding what [_encode] returns *)

Lemma walks_nil : walks "" "".
Proof.
  intros done rest out. simpl. now rewrite Nat.add_0_r, append_nil_r.
Qed.

Lemma walks_app t1 t2 x1 x2 :
  walks t1 x1 -> walks t2 x2 -> walks (t1 ++ t2) (x1 ++ x2).
Proof.
  intros H1 H2 done rest out.
  rewrite (append_assoc t1 t2 rest), (H1 done (t2 ++ rest) out).
  rewrite <- (append_assoc done t1 (t2 ++ rest)), <- length_append.
  rewrite (H2 (done ++ t1) rest (out ++ x1)).
  now rewrite !length_append, !append_assoc, Nat.add_assoc.
Qed.

(** Every code of [table] is one character. *)
Lemma table_code_char (k v : string) :
  Py.get table k = Some v -> exists c, v = Py.chr c.
Proof.
  intros H. apply get_In in H.
  assert (C : forallb (fun kv => (String.length (snd kv) =? 1)%nat) table = true)
    by (vm_compute; reflexivity).
  rewrite forallb_forall in C. specialize (C _ H). cbn [snd] in C.
  apply Nat.eqb_eq in C. destruct v as [|c [|? ?]]; try discriminate.
  now exists c.
Qed.

Lemma walks_code (k v : string) : Py.get table k = Some v -> walks v k.
Proof.
  intros H done rest out.
  destruct (table_code_char k v H) as [c ->].
  pose proof (getitem_app done c rest) as Hx.
  change (String c rest) with (Py.chr c ++ rest) in Hx.
  rewrite (decode_loop_step _ _ _ _ _ (getitem_in_range _ _ _ Hx)
             (decode_step_code _ _ out _ _ Hx (table_rev_table _ _ H))).
  reflexivity.
Qed.

Lemma walks_frame (x : string) (d : ascii) :
  1 <= String.length x ->
  Py.index base_62 (Py.chr d) = Ok (String.length x - 1) ->
  walks ("5" ++ Py.chr d ++ x) x.
Proof.
  intros Hlen Hi done rest out.
  set (text := done ++ ("5" ++ Py.chr d ++ x) ++ rest).
  assert (Hx : Py.getitem text (Z.of_nat (String.length done)) = Ok "5")
    by apply getitem_app.
  assert (Hd : Py.getitem text (Z.of_nat (String.length done + 1)) =
               Ok (Py.chr d)).
  { replace (String.length done + 1) with (String.length (done ++ "5"))
      by (rewrite length_append; reflexivity).
    replace text with ((done ++ "5") ++ String d (x ++ rest))
      by (unfold text; rewrite !append_assoc; reflexivity).
    apply getitem_app. }
  rewrite (decode_loop_step _ _ _ _ _ (getitem_in_range _ _ _ Hx)
             (decode_step_frame _ _ out _ _ Hx Hd Hi)).
  replace (String.length x - 1 + 1) with (String.length x) by lia.
  replace (Py.slice text (String.length done + 1 + 1)
             (String.length done + 1 + 1 + String.length x)) with x.
  - f_equal. simpl. lia.
  - symmetry.
    replace (String.length done + 1 + 1)
      with (String.length (done ++ "5" ++ Py.chr d))
      by (rewrite length_append; simpl; lia).
    replace text with ((done ++ "5" ++ Py.chr d) ++ x ++ rest)
      by (unfold text; rewrite !append_assoc; reflexivity).
    now apply slice_app.
Qed.

Lemma encode_segment_walks (acc x acc' : string) :
  encode_segment acc x = Ok acc' ->
  exists tok, acc' = acc ++ tok /\ walks tok x.
Proof.
  unfold encode_segment.
  destruct (String.eqb_spec x "") as [->|Hne].
  - intros [= <-]. exists "". split; [now rewrite append_nil_r|apply walks_nil].
  - destruct (Py.get table x) as [code|] eqn:E.
    + intros [= <-]. exists code. split; [reflexivity|now apply walks_code].
    + destruct (le_lt_dec (String.length x) 62) as [Hle|Hgt].
      * assert (Hpos : 1 <= String.length x)
          by (destruct x; [congruence|simpl; lia]).
        destruct (_form_ident_short x (conj Hpos Hle)) as (d & -> & Hi).
        cbn [bind]. intros [= <-]. eexists. split; [reflexivity|].
        now apply walks_frame.
      * rewrite _form_ident_long by lia. discriminate.
Qed.

Lemma encode_loop_walks (segs : list string) (acc r : string) :
  foldM encode_segment segs acc = Ok r ->
  exists tok, r = acc ++ tok /\
              walks tok (String.concat "" (filter nonempty segs)).
Proof.
  revert acc. induction segs as [|x segs IH]; intros acc.
  - intros [= <-]. exists "". split; [now rewrite append_nil_r|apply walks_nil].
  - cbn [foldM]. destruct (encode_segment acc x) as [acc'|] eqn:E;
      cbn [bind]; [|discriminate].
    intros H. destruct (encode_segment_walks _ _ _ E) as (t1 & -> & W1).
    destruct (IH _ H) as (t2 & -> & W2).
    exists (t1 ++ t2). split; [now rewrite append_assoc|].
    rewrite concat_filter_cons. now apply walks_app.
Qed.

(** The loop of [_decode] turns the payload of a text back into the text. *)
Lemma decode_loop_encode_payload (txt payload : string) :
  encode_payload txt = Ok payload -> decode_loop payload 0 "" = Ok txt.
Proof.
  intros H. apply encode_loop_walks in H. destruct H as (tok & E & W).
  simpl in E. subst tok.
  rewrite (proj1 (re_split_spec _ txt (le_n _))) in W.
  specialize (W "" "" ""). simpl in W. rewrite append_nil_r in W.
  rewrite W. apply decode_loop_done. lia.
Qed.

(** [_encode] raises exactly when some segment between literals is longer
    than 62 characters, and what it raises is [IndexError]. *)
Lemma encode_loop_defined (segs : list string) (acc : string) :
  Forall (fun seg => Py.get table seg = None -> String.length seg <= 62) segs ->
  exists r, foldM encode_segment segs acc = Ok r.
Proof.
  intros H. revert acc. induction H as [|x segs Hx _ IH]; intros acc.
  - now exists acc.
  - cbn [foldM]. unfold encode_segment at 1.
    destruct (String.eqb_spec x "") as [->|Hne]; [apply IH|].
    destruct (Py.get table x) as [code|]; [apply IH|].
    assert (Hpos : 1 <= String.length x)
      by (destruct x; [congruence|simpl; lia]).
    destruct (_form_ident_short x (conj Hpos (Hx eq_refl))) as (d & -> & _).
    apply IH.
Qed.

Lemma encode_loop_raises (segs : list string) (acc : string) :
  Exists (fun seg => Py.get table seg = None /\ 63 <= String.length seg) segs ->
  foldM encode_segment segs acc = Raise IndexError.
Proof.
  intros H. revert acc. induction segs as [|x segs IH]; intros acc.
  - inversion H.
  - cbn [foldM].
    destruct (encode_segment acc x) as [acc'|e] eqn:E; cbn [bind].
    + inversion H as [? ? [Hn Hl]|]; subst; [|now apply IH].
      exfalso. unfold encode_segment in E.
      destruct (String.eqb_spec x "") as [->|_]; [simpl in Hl; lia|].
      rewrite Hn, _form_ident_long in E by lia. discriminate.
    + f_equal. unfold encode_segment in E.
      destruct (x =? "")%string; [discriminate|].
      destruct (Py.get table x); [discriminate|].
      destruct (le_lt_dec (String.length x) 62) as [Hle|Hgt].
      * destruct x as [|c x]; [discriminate|].
        destruct (_form_ident_short (String c x)) as (d & Hd & _);
          [simpl in *; lia|]. rewrite Hd in E. discriminate.
      * rewrite _form_ident_long in E by lia. now injection E as <-.
Qed.

Lemma segments_short_or_long (segs : list string) :
  Forall (fun seg => Py.get table seg = None -> String.length seg <= 62) segs \/
  Exists (fun seg => Py.get table seg = None /\ 63 <= String.length seg) segs.
Proof.
  induction segs as [|x segs [IH|IH]]; [left; constructor| |right; now right].
  destruct (Py.get table x) eqn:E.
  - left. constructor; [congruence|exact IH].
  - destruct (le_lt_dec (String.length x) 62).
    + left. constructor; [intros _; assumption|exact IH].
    + right. left. split; [exact E|lia].
Qed.

Section RoundTrip.

Variable deflate64 : string -> string.
Variable inflate64 : string -> option string.

(** The library codec inverts itself: inflating what was deflated gives the
    text back. *)
Hypothesis inflate_deflate : forall s, inflate64 (deflate64 s) = Some s.

(** Whenever [_encode] returns, [_decode] turns its result back into the
    text that was encoded, whatever the threshold. *)
Theorem decode_encode (txt : string) (threshold_length : Z) (r : string) :
  _encode deflate64 txt threshold_length = Ok r ->
  _decode inflate64 r = Ok txt.
Proof.
  unfold _encode. destruct (encode_payload txt) as [p|] eqn:Hp;
    cbn [bind]; [|discriminate].
  apply decode_loop_encode_payload in Hp.
  assert (Hraw : _decode inflate64 ("0" ++ p) = Ok txt).
  { unfold _decode. change ("0" ++ p) with (String "0"%char p).
    rewrite decode_body_raw; [exact Hp|discriminate]. }
  assert (Hdef : _decode inflate64 ("1" ++ deflate64 p) = Ok txt).
  { unfold _decode. rewrite decode_body_flagged, inflate_deflate. exact Hp. }
  destruct (_ >? _)%Z; [destruct (_ <? _)%nat|]; intros [= <-]; assumption.
Qed.

End RoundTrip.

(** [_encode] returns when every segment that is not a literal of [table]
    has at most 62 characters, and raises [IndexError] when one has more. *)
Theorem encode_returns_or_raises (deflate64 : string -> string)
    (txt : string) (threshold_length : Z) :
  (Forall (fun seg => Py.get table seg = None -> String.length seg <= 62)
          (re_split txt) /\
   exists r, _encode deflate64 txt threshold_length = Ok r) \/
  (Exists (fun seg => Py.get table seg = None /\ 63 <= String.length seg)
          (re_split txt) /\
   _encode deflate64 txt threshold_length = Raise IndexError).
Proof.
  unfold _encode, encode_payload.
  destruct (segments_short_or_long (re_split txt)) as [H|H].
  - left. split; [exact H|].
    destruct (encode_loop_defined _ "" H) as [p ->]. cbn [bind].
    destruct (_ >? _)%Z; [destruct (_ <? _)%nat|]; eauto.
  - right. split; [exact H|]. now rewrite encode_loop_raises.
Qed.

(** The framer on every segment: nothing for the empty one, one frame for 1
    to 62 characters, [IndexError] from 63 characters on. *)
Theorem form_ident_cases (x : string) :
  (x = "" /\ _form_ident x = Ok "") \/
  (1 <= String.length x <= 62 /\
   exists d, _form_ident x = Ok ("5" ++ Py.chr d ++ x) /\
             Py.index base_62 (Py.chr d) = Ok (String.length x - 1)) \/
  (63 <= String.length x /\ _form_ident x = Raise IndexError).
Proof.
  destruct x as [|c x]; [left; split; reflexivity|right].
  destruct (le_lt_dec (String.length (String c x)) 62) as [Hle|Hgt].
  - left. assert (H : 1 <= String.length (String c x) <= 62)
      by (simpl in *; lia).
    split; [exact H|now apply _form_ident_short].
  - right. split; [lia|]. apply _form_ident_long. lia.
Qed.

(** ** Instances and examples *)

(** The docstring's example artifact decodes to the minified program. *)
Example decode_docstring_example :
  forall inflate64,
    _decode inflate64
      "0b952typE50g0k950Av53valsWZH952sumv53valsW050B850Avw50125022503XW051prE50tv50Avw50B25042505XWW"
    = Ok ("import typing" ++ newline ++
          "def A(vals):return sum(vals)" ++ newline ++
          "B=A([1,2,3])" ++ newline ++
          "print(A([B,4,5]))").
Proof. intros. vm_compute. reflexivity. Qed.

Example encode_if_xyz :
  forall deflate64, _encode deflate64 "if xyz" 1900 = Ok "0Q952xyz".
Proof. intros. vm_compute. reflexivity. Qed.

Lemma decode_rejects_invalid_symbol_witness :
  Py.get rev_table "+" = None /\
  _decode unstored "0Q+" = Raise (ValueError_invalid_symbol "+").
Proof.
  split; [reflexivity|].
  apply (decode_rejects_invalid_symbol unstored "0Q+" "Q+" 1 "if" "+").
  - reflexivity.
  - apply (reaches_step "Q+" 0 "" 1 "if").
    + apply reaches_start.
    + simpl. lia.
    + reflexivity.
  - reflexivity.
  - reflexivity.
  - discriminate.
Defined.

Lemma decode_truncates_overrun_witness :
  _decode unstored "0Q5Zab" = Ok ("if" ++ "ab").
Proof.
  apply (decode_truncates_overrun unstored "0Q5Zab" "Q5Zab" 1 "if" "Z" 61).
  - reflexivity.
  - apply (reaches_step "Q5Zab" 0 "" 1 "if").
    + apply reaches_start.
    + simpl. lia.
    + reflexivity.
  - reflexivity.
  - reflexivity.
  - reflexivity.
  - simpl. lia.
Defined.

Lemma flag_handling_witness :
  exists body, "0Q" = "0" ++ body \/ "0Q" = "1" ++ body.
Proof.
  apply (proj1 (flag_handling stored unstored) "if" 1900%Z "0Q").
  reflexivity.
Defined.

Lemma compression_gate_witness :
  encode_payload "if" = Ok "Q" /\ _encode stored "if" 1900 = Ok "0Q".
Proof.
  split; [reflexivity|].
  apply (proj1 (compression_gate stored "if" 1900%Z "Q" eq_refl)).
  simpl. lia.
Defined.

Lemma table_bijection_witness :
  Py.get table "if" = Some "Q" /\ Py.get rev_table "Q" = Some "if".
Proof.
  split; [reflexivity|].
  apply (proj1 (proj2 (proj2 (proj2 (proj2 (proj2 table_bijection)))))
           "if" "Q").
  reflexivity.
Defined.

Lemma decode_encode_witness :
  _encode stored "if xyz" 1900 = Ok "0Q952xyz" /\
  _decode unstored "0Q952xyz" = Ok "if xyz".
Proof.
  split; [reflexivity|].
  apply (decode_encode stored unstored (fun s => eq_refl) "if xyz" 1900%Z).
  reflexivity.
Defined.

Lemma decode_frame_header_errors_witness :
  _decode unstored "0Q5" = Raise IndexError /\
  _decode unstored "0Q5+a" = Raise ValueError_not_found.
Proof.
  split.
  - apply (decode_frame_header_errors unstored "0Q5" "Q5" 1 "if").
    + reflexivity.
    + apply (reaches_step "Q5" 0 "" 1 "if");
        [apply reaches_start|simpl; lia|reflexivity].
    + reflexivity.
    + simpl. lia.
  - apply (proj2 (decode_frame_header_errors unstored "0Q5+a" "Q5+a" 1 "if"
                    eq_refl
                    (reaches_step "Q5+a" 0 "" 1 "if" (reaches_start _)
                       ltac:(simpl; lia) eq_refl)
                    eq_refl) "+"); reflexivity.
Defined.

(** * Further properties of the codec *)

(** ** The tokens the encoder emits and the decoder reads *)

(** What one turn of the loop of [_encode] adds to the payload. *)
Lemma encode_segment_shape (acc x acc' : string) :
  encode_segment acc x = Ok acc' ->
  (x = "" /\ acc' = acc) \/
  (x <> "" /\ exists code, Py.get table x = Some code /\ acc' = acc ++ code) \/
  (Py.get table x = None /\ 1 <= String.length x <= 62 /\
   exists d, Py.index base_62 (Py.chr d) = Ok (String.length x - 1) /\
             acc' = acc ++ "5" ++ Py.chr d ++ x).
Proof.
  unfold encode_segment.
  destruct (String.eqb_spec x "") as [->|Hne].
  - intros [= <-]. now left.
  - intros H. right. destruct (Py.get table x) as [code|] eqn:E.
    + injection H as <-. left. split; [exact Hne|]. now exists code.
    + right. split; [reflexivity|].
      assert (Hpos : 1 <= String.length x)
        by (destruct x; [congruence|simpl; lia]).
      destruct (le_lt_dec (String.length x) 62) as [Hle|Hgt].
      * destruct (_form_ident_short x (conj Hpos Hle)) as (d & Hd & Hi).
        rewrite Hd in H. cbn [bind] in H. injection H as <-.
        split; [lia|]. now exists d.
      * rewrite _form_ident_long in H by lia. discriminate.
Qed.

Lemma token_walks (t : token) : token_ok t -> walks (wire t) (meaning t).
Proof.
  destruct t as [k v|d x]; simpl.
  - apply walks_code.
  - intros [Hpos Hi]. now apply walks_frame.
Qed.

Lemma tokens_walk (ts : list token) :
  Forall token_ok ts ->
  walks (String.concat "" (map wire ts)) (String.concat "" (map meaning ts)).
Proof.
  induction 1 as [|t ts Ht _ IH]; [apply walks_nil|].
  cbn [map]. rewrite !concat_cons. apply walks_app; [|exact IH].
  now apply token_walks.
Qed.

(** The decoder on every payload that follows the format: a sequence of
    symbols and idents, whatever the idents' spans hold, decodes to the
    literals and spans in order. *)
Theorem decode_tokens (inflate64 : string -> option string) (ts : list token) :
  Forall token_ok ts ->
  _decode inflate64 ("0" ++ String.concat "" (map wire ts)) =
  Ok (String.concat "" (map meaning ts)).
Proof.
  intros H. apply tokens_walk in H.
  unfold _decode.
  change ("0" ++ String.concat "" (map wire ts))
    with (String "0"%char (String.concat "" (map wire ts))).
  rewrite decode_body_raw by discriminate. cbn [bind].
  specialize (H "" "" ""). simpl in H. rewrite append_nil_r in H.
  rewrite H. apply decode_loop_done. lia.
Qed.

Lemma encode_loop_tokens (segs : list string) (acc r : string) :
  Forall segment_ok segs ->
  foldM encode_segment segs acc = Ok r ->
  exists ts,
    Forall token_ok ts /\ Forall ident_literal_free ts /\
    r = acc ++ String.concat "" (map wire ts) /\
    String.concat "" (filter nonempty segs) = String.concat "" (map meaning ts).
Proof.
  intros Hok. revert acc. induction Hok as [|x segs Hx _ IH]; intros acc.
  - intros [= <-]. exists []. simpl. rewrite append_nil_r. auto.
  - cbn [foldM]. destruct (encode_segment acc x) as [acc'|] eqn:E;
      cbn [bind]; [|discriminate].
    intros H. destruct (IH _ H) as (ts & Hts & Hfree & -> & Hcat).
    rewrite concat_filter_cons, Hcat.
    destruct (encode_segment_shape _ _ _ E)
      as [[-> ->]|[(Hne & code & Hc & ->)|(Hn & Hlen & d & Hd & ->)]].
    + exists ts. auto.
    + exists (Symbol x code :: ts). cbn [map]. rewrite !concat_cons.
      split; [|split; [|split]].
      * constructor; [exact Hc|exact Hts].
      * constructor; [exact I|exact Hfree].
      * cbn [wire]. now rewrite append_assoc.
      * reflexivity.
    + exists (Ident d x :: ts). cbn [map]. rewrite !concat_cons.
      split; [|split; [|split]].
      * constructor; [|exact Hts]. split; [lia|exact Hd].
      * constructor; [|exact Hfree]. exact (Hx Hn).
      * cbn [wire]. now rewrite !append_assoc.
      * reflexivity.
Qed.

Lemma encode_payload_tokens (txt payload : string) :
  encode_payload txt = Ok payload ->
  exists ts,
    Forall token_ok ts /\ Forall ident_literal_free ts /\
    payload = String.concat "" (map wire ts) /\
    txt = String.concat "" (map meaning ts).
Proof.
  intros H. unfold encode_payload in H.
  destruct (re_split_spec _ txt (le_n _)) as [Hcat Hok].
  destruct (encode_loop_tokens _ _ _ Hok H) as (ts & H1 & H2 & H3 & H4).
  exists ts. simpl in H3. rewrite Hcat in H4. auto.
Qed.

(** What [_encode] builds before its gate is a sequence of well-formed
    tokens whose literals and spans, in order, make up the text; the spans
    of its idents hold no literal of [table]. *)
Theorem encoder_emits_tokens (txt payload : string) :
  encode_payload txt = Ok payload ->
  exists ts,
    Forall token_ok ts /\ Forall ident_literal_free ts /\
    payload = String.concat "" (map wire ts) /\
    txt = String.concat "" (map meaning ts).
Proof. apply encode_payload_tokens. Qed.

(** ** What the payload holds and how long it is *)

Lemma all_safe_app (a b : string) :
  all_safe (a ++ b) = all_safe a && all_safe b.
Proof.
  unfold all_safe. induction a as [|c a IH]; simpl; [reflexivity|].
  now rewrite IH, andb_assoc.
Qed.

Lemma all_safe_occurs (s : string) (c : ascii) :
  all_safe s = true -> occurs c s -> Py.get table (Py.chr c) = None.
Proof.
  intros H (a & b & ->). rewrite all_safe_app in H.
  apply andb_true_iff in H. destruct H as [_ H].
  unfold all_safe in H. simpl in H. apply andb_true_iff in H.
  destruct H as [H _]. unfold safe_char in H. apply negb_true_iff in H.
  apply get_None_keys. intros Hin. apply mem_In in Hin.
  unfold _kywds in H. congruence.
Qed.

(** The digits of [base_62] are no literals of [table]. *)
Lemma digit_safe (d : ascii) (i : nat) :
  Py.index base_62 (Py.chr d) = Ok i -> safe_char d = true.
Proof.
  destruct d as [b0 b1 b2 b3 b4 b5 b6 b7].
  destruct b0, b1, b2, b3, b4, b5, b6, b7;
    intros H; vm_compute in H; vm_compute; first [reflexivity|discriminate].
Qed.

Lemma code_safe (k v : string) : Py.get table k = Some v -> all_safe v = true.
Proof.
  intros H. apply get_In in H.
  assert (C : forallb (fun kv => all_safe (snd kv)) table = true)
    by (vm_compute; reflexivity).
  rewrite forallb_forall in C. exact (C _ H).
Qed.

Lemma literal_free_tail (c : ascii) (x : string) :
  literal_free (String c x) -> literal_free x.
Proof.
  intros H lit a b Hin E. apply (H lit (String c a) b Hin).
  simpl. now rewrite E.
Qed.

Lemma literal_free_safe (x : string) : literal_free x -> all_safe x = true.
Proof.
  induction x as [|c x IH]; intros H; [reflexivity|].
  unfold all_safe. simpl. apply andb_true_iff. split.
  - unfold safe_char. apply negb_true_iff.
    destruct (mem (Py.chr c) _kywds) eqn:E; [|reflexivity].
    apply mem_In in E. exfalso. exact (H (Py.chr c) "" x E eq_refl).
  - apply IH. now apply literal_free_tail in H.
Qed.

Lemma token_safe (t : token) :
  token_ok t -> ident_literal_free t -> all_safe (wire t) = true.
Proof.
  destruct t as [k v|d x]; cbn [token_ok wire ident_literal_free].
  - intros H _. now apply code_safe in H.
  - intros [_ Hd] Hfree.
    change (String "5" (String d x)) with ("5" ++ Py.chr d ++ x).
    rewrite !all_safe_app, (literal_free_safe _ Hfree).
    unfold all_safe at 2. simpl. rewrite (digit_safe _ _ Hd). reflexivity.
Qed.

Lemma tokens_safe (ts : list token) :
  Forall token_ok ts -> Forall ident_literal_free ts ->
  all_safe (String.concat "" (map wire ts)) = true.
Proof.
  induction 1 as [|t ts Ht _ IH]; intros Hfree; [reflexivity|].
  inversion Hfree as [|? ? Hf Hfs]; subst.
  cbn [map]. rewrite concat_cons, all_safe_app, (token_safe _ Ht Hf).
  now apply IH.
Qed.

Lemma payload_all_safe (txt payload : string) :
  encode_payload txt = Ok payload -> all_safe payload = true.
Proof.
  intros H. apply encode_payload_tokens in H.
  destruct H as (ts & Hok & Hfree & -> & _). now apply tokens_safe.
Qed.

(** No character of the payload is one of the one-character literals of
    [table]: no punctuation mark of the table, no quote, no newline, tab or
    space is left in it. *)
Theorem payload_has_no_literal_char (txt payload : string) (c : ascii) :
  encode_payload txt = Ok payload ->
  occurs c payload ->
  Py.get table (Py.chr c) = None.
Proof.
  intros H Hocc. exact (all_safe_occurs _ _ (payload_all_safe _ _ H) Hocc).
Qed.

Lemma token_length (t : token) :
  token_ok t -> String.length (wire t) <= 3 * String.length (meaning t).
Proof.
  destruct t as [k v|d x]; cbn [token_ok wire meaning].
  - intros H. destruct (table_code_char _ _ H) as [c ->].
    apply get_In in H. apply (in_map fst) in H.
    apply _kywds_nonempty in H. cbn [fst String.length Py.chr] in *. lia.
  - intros [Hpos _]. simpl. lia.
Qed.

Lemma tokens_length (ts : list token) :
  Forall token_ok ts ->
  String.length (String.concat "" (map wire ts)) <=
  3 * String.length (String.concat "" (map meaning ts)).
Proof.
  induction 1 as [|t ts Ht _ IH]; [simpl; lia|].
  cbn [map]. rewrite !concat_cons, !length_append.
  apply token_length in Ht. lia.
Qed.

(** The artifact is never longer than three times the text plus the flag:
    a literal becomes one character, and a span of [n] characters between
    literals becomes [n + 2]. *)
Theorem artifact_length_bound (deflate64 : string -> string) (txt : string)
    (threshold_length : Z) (r : string) :
  _encode deflate64 txt threshold_length = Ok r ->
  String.length r <= 3 * String.length txt + 1.
Proof.
  unfold _encode. destruct (encode_payload txt) as [p|] eqn:Hp;
    cbn [bind]; [|discriminate].
  apply encode_payload_tokens in Hp. destruct Hp as (ts & Hok & _ & -> & ->).
  pose proof (tokens_length _ Hok) as Hlen.
  destruct (_ >? _)%Z.
  - destruct (Nat.ltb_spec
                (String.length ("1" ++ deflate64 (String.concat "" (map wire ts))))
                (String.length (String.concat "" (map wire ts)) + 1));
      intros [= <-]; simpl in *; lia.
  - intros [= <-]. simpl. lia.
Qed.

(** The empty text is the only text with an empty payload; its artifact is
    ["0"] whatever the threshold and the library codec, and ["0"] decodes to
    the empty text. *)
Theorem empty_text :
  (forall txt, encode_payload txt = Ok "" <-> txt = "") /\
  (forall deflate64 threshold_length,
      _encode deflate64 "" threshold_length = Ok "0") /\
  (forall inflate64, _decode inflate64 "0" = Ok "").
Proof.
  split; [|split].
  - intros txt. split.
    + intros H. apply decode_loop_encode_payload in H.
      rewrite decode_loop_done in H by (simpl; lia). congruence.
    + intros ->. reflexivity.
  - intros deflate64 t. unfold _encode.
    replace (encode_payload "") with (@Ok string "") by reflexivity.
    cbn [bind]. destruct (_ >? _)%Z; [|reflexivity].
    destruct (Nat.ltb_spec (String.length ("1" ++ deflate64 ""))
                (String.length "" + 1)) as [H|H]; [|reflexivity].
    simpl in H. lia.
  - reflexivity.
Qed.

(** Raising the threshold never shortens the artifact: below the payload's
    length the shorter of the two forms is returned, from it on the raw
    one. *)
Theorem threshold_monotone (deflate64 : string -> string) (txt : string)
    (t1 t2 : Z) (r1 r2 : string) :
  (t1 <= t2)%Z ->
  _encode deflate64 txt t1 = Ok r1 ->
  _encode deflate64 txt t2 = Ok r2 ->
  String.length r1 <= String.length r2.
Proof.
  intros Hle. unfold _encode.
  destruct (encode_payload txt) as [p|]; cbn [bind]; [|discriminate].
  destruct (Z.gtb_spec (Z.of_nat (String.length p)) t1);
    destruct (Z.gtb_spec (Z.of_nat (String.length p)) t2); try lia.
  - intros [= <-] [= <-]. lia.
  - destruct (Nat.ltb_spec (String.length ("1" ++ deflate64 p))
                (String.length p + 1));
      intros [= <-] [= <-]; simpl in *; lia.
  - intros [= <-] [= <-]. lia.
Qed.

(** ** Literals the tokenizer never takes, and text without literals *)

(** A token taken by the tokenizer is never ["assert"] or ["async"]: where
    one of them matches, ["as"], which stands before both in [table],
    matches too. *)
Lemma match_here_not_shadowed (s m : string) :
  match_here _kywds s = Some m -> m <> "assert" /\ m <> "async".
Proof.
  intros H. destruct (match_here_first _ _ _ H) as (i & Hi & Hp & Hmin).
  assert (Has : forall r, String.prefix "as" ("as" ++ r) = true)
    by (intros r; apply prefix_app; now exists r).
  split; intros ->; apply prefix_app in Hp; destruct Hp as [r ->].
  - specialize (Hmin 20 "as" eq_refl (Has ("sert" ++ r))).
    do 21 (destruct i as [|i]; [vm_compute in Hi; discriminate|]). lia.
  - specialize (Hmin 20 "as" eq_refl (Has ("ync" ++ r))).
    do 21 (destruct i as [|i]; [vm_compute in Hi; discriminate|]). lia.
Qed.

Lemma re_split_segments (n : nat) (s : string) :
  String.length s <= n ->
  Forall (fun seg => literal_free seg \/
                     exists s', match_here _kywds s' = Some seg)
         (re_split s).
Proof.
  revert s. induction n as [|n IH]; intros s Hn; rewrite re_split_eq;
    destruct (re_search _kywds s) as [[p m]|] eqn:E.
  - exfalso. apply re_search_bounds in E. destruct E as [Hin Hle].
    apply _kywds_nonempty in Hin. lia.
  - constructor; [|constructor]. left.
    apply (no_match_literal_free s ""). intros a b Hab _.
    rewrite append_nil_r in Hab. exact (re_search_None _ _ E a b Hab).
  - pose proof (re_search_bounds _ _ _ _ E) as [Hin _].
    apply re_search_Some in E.
    destruct E as (pre & post & -> & <- & Hm & Hnone).
    assert (Hpre : Py.slice (pre ++ m ++ post) 0 (String.length pre) = pre)
      by (unfold Py.slice; rewrite Nat.sub_0_r; apply substring_take).
    assert (Hpost : Py.slice_from (pre ++ m ++ post)
                      (String.length pre + String.length m) = post)
      by (rewrite <- append_assoc, <- length_append; apply slice_from_app).
    rewrite Hpre, Hpost. apply _kywds_nonempty in Hin.
    constructor; [|constructor].
    + left. exact (no_match_literal_free pre (m ++ post) Hnone).
    + right. now exists (m ++ post).
    + apply IH. rewrite !length_append in Hn. lia.
  - constructor; [|constructor]. left.
    apply (no_match_literal_free s ""). intros a b Hab _.
    rewrite append_nil_r in Hab. exact (re_search_None _ _ E a b Hab).
Qed.

(** The loop of [_encode] never meets the segment ["assert"] or ["async"]:
    their entries of [table] are never used, since ["as"] is taken first
    (["assert"] becomes the code of ["as"] and a frame of ["sert"]). *)
Theorem shadowed_literals_never_tokens (txt : string) :
  ~ In "assert" (re_split txt) /\ ~ In "async" (re_split txt).
Proof.
  pose proof (re_split_segments _ txt (le_n _)) as H.
  rewrite Forall_forall in H.
  assert (Has : In "as" _kywds) by (apply mem_In; vm_compute; reflexivity).
  split; intros Hin; destruct (H _ Hin) as [Hfree|[s' Hs']].
  - exact (Hfree "as" "" "sert" Has eq_refl).
  - now apply match_here_not_shadowed in Hs'.
  - exact (Hfree "as" "" "ync" Has eq_refl).
  - now apply match_here_not_shadowed in Hs'.
Qed.

Lemma literal_free_no_match (s : string) :
  literal_free s -> re_search _kywds s = None.
Proof.
  assert (Hhere : forall s, literal_free s -> match_here _kywds s = None).
  { intros s' H. apply match_here_none. intros lit Hin.
    destruct (String.prefix lit s') eqn:E; [|reflexivity].
    apply prefix_app in E. destruct E as [r ->].
    exfalso. exact (H lit "" r Hin eq_refl). }
  induction s as [|c s IH]; intros H; cbn [re_search];
    rewrite (Hhere _ H); [reflexivity|].
  rewrite IH; [reflexivity|]. now apply literal_free_tail in H.
Qed.

(** A text is one segment for the tokenizer exactly when it holds no literal
    of [table]; such a text of 1 to 62 characters is encoded as one frame
    around the whole text. *)
Theorem literal_free_text (txt : string) :
  (literal_free txt <-> re_split txt = [txt]) /\
  (literal_free txt -> 1 <= String.length txt <= 62 ->
   exists d, Py.index base_62 (Py.chr d) = Ok (String.length txt - 1) /\
             encode_payload txt = Ok ("5" ++ Py.chr d ++ txt)).
Proof.
  assert (Hsplit : literal_free txt -> re_split txt = [txt]).
  { intros H. now rewrite re_split_eq, literal_free_no_match. }
  split; [split; [exact Hsplit|]|].
  - intros H. rewrite re_split_eq in H.
    destruct (re_search _kywds txt) as [[p m]|] eqn:E; [discriminate|].
    apply (no_match_literal_free txt ""). intros a b Hab _.
    rewrite append_nil_r in Hab. exact (re_search_None _ _ E a b Hab).
  - intros Hfree Hlen. unfold encode_payload. rewrite (Hsplit Hfree).
    cbn [foldM]. unfold encode_segment.
    destruct (String.eqb_spec txt "") as [->|_]; [simpl in Hlen; lia|].
    assert (Hget : Py.get table txt = None).
    { apply get_None_keys. intros Hin.
      apply (Hfree txt "" "" Hin). now rewrite append_nil_r. }
    rewrite Hget. destruct (_form_ident_short txt Hlen) as (d & -> & Hd).
    exists d. split; [exact Hd|reflexivity].
Qed.

(** ** [compress] and [decompress] *)

Section CallerProperties.

Variable deflate64 : string -> string.
Variable inflate64 : string -> option string.
Variable quote : string -> string.
Variable unquote : string -> string.
Variable minify_options : Type.
Variable minify_exn : Type.
Variable minify : string -> minify_options -> bool -> minify_exn + string.
Variable __debug__ : bool.

(** How a call of [compress] can end: with what [minify] raised; with
    [IndexError], when the minified text has 63 or more characters between
    two literals; or, when every such run has at most 62, with the artifact
    of the minified text, quoted if [url_safe]. *)
Theorem compress_outcomes (code : string) (url_safe : bool)
    (threshold_length : Z) (options : minify_options)
    (remove_debug : option bool) :
  (exists e,
      minify code options (effective_remove_debug __debug__ remove_debug)
        = inl e /\
      compress deflate64 quote minify_options minify_exn minify __debug__
               code url_safe threshold_length options remove_debug
        = MinifyRaised e) \/
  (exists minified,
      minify code options (effective_remove_debug __debug__ remove_debug)
        = inr minified /\
      Exists (fun seg => Py.get table seg = None /\ 63 <= String.length seg)
             (re_split minified) /\
      compress deflate64 quote minify_options minify_exn minify __debug__
               code url_safe threshold_length options remove_debug
        = EncodeRaised IndexError) \/
  (exists minified artifact,
      minify code options (effective_remove_debug __debug__ remove_debug)
        = inr minified /\
      Forall (fun seg => Py.get table seg = None -> String.length seg <= 62)
             (re_split minified) /\
      _encode deflate64 minified threshold_length = Ok artifact /\
      compress deflate64 quote minify_options minify_exn minify __debug__
               code url_safe threshold_length options remove_debug
        = Returned (if url_safe then quote artifact else artifact)).
Proof.
  unfold compress, effective_remove_debug.
  destruct (minify code options _) as [e|minified]; [left; eauto|right].
  destruct (segments_short_or_long (re_split minified)) as [H|H].
  - right. exists minified.
    assert (Hr : exists artifact,
               _encode deflate64 minified threshold_length = Ok artifact).
    { unfold _encode, encode_payload.
      destruct (encode_loop_defined _ "" H) as [p ->]. cbn [bind].
      destruct (_ >? _)%Z; [destruct (_ <? _)%nat|]; eauto. }
    destruct Hr as [artifact Hr]. exists artifact. rewrite Hr. auto.
  - left. exists minified.
    assert (Hr : _encode deflate64 minified threshold_length = Raise IndexError).
    { unfold _encode, encode_payload. now rewrite encode_loop_raises. }
    rewrite Hr. auto.
Qed.

(** What the libraries promise: the codec and the quoting invert
    themselves, [unquote] leaves a text without ["%"] as it is, and
    deflating (its output is base64 text) brings no ["%"] in. *)
Hypothesis inflate_deflate : forall s, inflate64 (deflate64 s) = Some s.
Hypothesis unquote_quote : forall s, unquote (quote s) = s.
Hypothesis unquote_plain : forall s, ~ occurs "%" s -> unquote s = s.
Hypothesis deflate_plain :
  forall s, ~ occurs "%" s -> ~ occurs "%" (deflate64 s).

Lemma flag_plain (f : ascii) (body : string) :
  f <> "%"%char -> ~ occurs "%" body -> ~ occurs "%" (String f body).
Proof.
  intros Hf Hb ([|c a] & b & E); simpl in E; injection E as -> E.
  - congruence.
  - apply Hb. now exists a, b.
Qed.

(** An artifact decodes to its text and holds no ["%"]. *)
Lemma artifact_decodes_plain (txt : string) (threshold_length : Z)
    (artifact : string) :
  _encode deflate64 txt threshold_length = Ok artifact ->
  _decode inflate64 artifact = Ok txt /\ ~ occurs "%" artifact.
Proof.
  unfold _encode. destruct (encode_payload txt) as [p|] eqn:Hp;
    cbn [bind]; [|discriminate].
  assert (Hplain : ~ occurs "%" p).
  { intros Hocc. apply (all_safe_occurs _ _ (payload_all_safe _ _ Hp)) in Hocc.
    vm_compute in Hocc. discriminate. }
  apply decode_loop_encode_payload in Hp.
  assert (Hraw : _decode inflate64 ("0" ++ p) = Ok txt).
  { unfold _decode. change ("0" ++ p) with (String "0"%char p).
    rewrite decode_body_raw; [exact Hp|discriminate]. }
  assert (Hdef : _decode inflate64 ("1" ++ deflate64 p) = Ok txt).
  { unfold _decode. rewrite decode_body_flagged, inflate_deflate. exact Hp. }
  destruct (_ >? _)%Z; [destruct (_ <? _)%nat|]; intros [= <-];
    (split; [assumption|]); apply flag_plain; auto; discriminate.
Qed.

(** [decompress] undoes [compress] up to the minifier: whenever [compress]
    returns, quoted or not, [decompress] of its result is the minified
    text.  An unquoted result survives [unquote] because no artifact holds a
    ["%"]. *)
Theorem decompress_compress (code : string) (url_safe : bool)
    (threshold_length : Z) (options : minify_options)
    (remove_debug : option bool) (compressed : string) :
  compress deflate64 quote minify_options minify_exn minify __debug__
           code url_safe threshold_length options remove_debug
    = Returned compressed ->
  exists minified,
    minify code options (effective_remove_debug __debug__ remove_debug)
      = inr minified /\
    decompress inflate64 unquote compressed = Ok minified.
Proof.
  unfold compress, decompress, effective_remove_debug.
  destruct (minify code options _) as [e|minified]; [discriminate|].
  destruct (_encode deflate64 minified threshold_length) as [artifact|] eqn:E;
    [|discriminate].
  intros [= <-]. exists minified. split; [reflexivity|].
  destruct (artifact_decodes_plain _ _ _ E) as [Hdec Hplain].
  replace (unquote (if url_safe then quote artifact else artifact))
    with artifact; [exact Hdec|].
  destruct url_safe; symmetry; [apply unquote_quote|now apply unquote_plain].
Qed.

End CallerProperties.

(** ** Instances of the further properties *)

Example encode_payload_assert : encode_payload "assert" = Ok "K53sert".
Proof. vm_compute. reflexivity. Qed.

Lemma decode_tokens_witness :
  _decode unstored "0Q52if(" = Ok ("if" ++ "if(").
Proof.
  apply (decode_tokens unstored [Symbol "if" "Q"; Ident "2" "if("]).
  constructor; [reflexivity|].
  constructor; [|constructor].
  split; [simpl; lia|reflexivity].
Defined.

Lemma encoder_emits_tokens_witness :
  exists ts,
    Forall token_ok ts /\ Forall ident_literal_free ts /\
    "Q952xyz" = String.concat "" (map wire ts) /\
    "if xyz" = String.concat "" (map meaning ts).
Proof. apply (encoder_emits_tokens "if xyz" "Q952xyz"). reflexivity. Defined.

Lemma payload_has_no_literal_char_witness :
  encode_payload "if xyz" = Ok "Q952xyz" /\ Py.get table "9" = None.
Proof.
  split; [reflexivity|].
  apply (payload_has_no_literal_char "if xyz" "Q952xyz" "9").
  - reflexivity.
  - exists "Q", "52xyz". reflexivity.
Defined.

Lemma artifact_length_bound_witness :
  String.length "0Q952xyz" <= 3 * String.length "if xyz" + 1.
Proof.
  apply (artifact_length_bound stored "if xyz" 1900%Z "0Q952xyz").
  reflexivity.
Defined.

Lemma threshold_monotone_witness :
  String.length "0Q952xyz" <= String.length "0Q952xyz".
Proof.
  apply (threshold_monotone stored "if xyz" 0%Z 1900%Z "0Q952xyz" "0Q952xyz").
  - lia.
  - reflexivity.
  - reflexivity.
Defined.

Lemma decompress_compress_witness :
  exists minified,
    @inr unit string "if xyz" = inr minified /\
    decompress unstored (fun s => s) "0Q952xyz" = Ok minified.
Proof.
  apply (decompress_compress stored unstored (fun s => s) (fun s => s)
           unit unit (fun code _ _ => inr code) true
           (fun s => eq_refl) (fun s => eq_refl) (fun s _ => eq_refl)
           (fun s H => H)
           "if xyz" true 1900%Z tt None "0Q952xyz").
  reflexivity.
Defined.
